(** * Will Writing Service API: order workflow and plan catalog

    A shallow embedding of [src/main.py] (the FastAPI routes [list_plans],
    [create_order], [get_order], [pay_order] and the helpers [oid] and
    [ensure_default_plans]) and of the [Plan]/[Order] models of
    [src/schemas.py], with the document store kept as explicit state. *)

From Stdlib Require Import List String Ascii Bool Arith ZArith Lia.
From Stdlib Require Import Strings.Byte Eqdep_dec DecimalString PrimFloat.
From Stdlib Require Import DecimalPos DecimalZ.
Import ListNotations.

Local Open Scope string_scope.

(* ================================================================= *)
(** ** Strings: the few [str] operations the routes use *)

Module Str.

(** [c.upper()] on one ASCII character. *)
Definition upper_ascii (c : ascii) : ascii :=
  let n := nat_of_ascii c in
  if (97 <=? n)%nat && (n <=? 122)%nat then ascii_of_nat (n - 32) else c.

(** [s.upper()]. Python's [str.upper] also maps characters outside ASCII;
    the only call site, line 170 of [main.py], applies it to a slice of a
    string that [ObjectId] has already accepted, which is ASCII:
    hexadecimal digits and blanks. *)
Fixpoint upper (s : string) : string :=
  match s with
  | EmptyString => EmptyString
  | String c r => String (upper_ascii c) (upper r)
  end.

(** [s[-n:]] for [n > 0]: the last [n] characters, the whole string when
    it is shorter. *)
Definition suffix (n : nat) (s : string) : string :=
  substring (String.length s - n) n s.

(** [str(z)] for a Python [int]. *)
Definition of_int (z : Z) : string := NilZero.string_of_int (Z.to_int z).

Definition is_digit (c : ascii) : bool :=
  let n := nat_of_ascii c in (48 <=? n)%nat && (n <=? 57)%nat.

Fixpoint all (p : ascii -> bool) (s : string) : bool :=
  match s with
  | EmptyString => true
  | String c r => p c && all p r
  end.

(** A string is the UTF-8 text of a Python [str]: a character is one byte
    that is no continuation byte, followed by its continuation bytes
    (10xxxxxx). *)
Definition is_continuation (c : ascii) : bool :=
  let n := nat_of_ascii c in (128 <=? n)%nat && (n <? 192)%nat.

(** [len(s)]: the number of characters. *)
Fixpoint chars (s : string) : nat :=
  match s with
  | EmptyString => 0
  | String c r => if is_continuation c then chars r else S (chars r)
  end.

(** [s[:n]]: the first [n] characters, each with its continuation
    bytes. *)
Fixpoint take_chars (n : nat) (s : string) : string :=
  match s with
  | EmptyString => EmptyString
  | String c r =>
      if is_continuation c then String c (take_chars n r)
      else match n with
           | O => EmptyString
           | S n' => String c (take_chars n' r)
           end
  end.

End Str.

(* ================================================================= *)
(** ** [bson.ObjectId] *)

Module BSON.

(** Value of one hexadecimal digit, upper or lower case. *)
Definition hex_val (c : ascii) : option N :=
  let n := N_of_ascii c in
  if (48 <=? n)%N && (n <=? 57)%N then Some (n - 48)%N
  else if (97 <=? n)%N && (n <=? 102)%N then Some (n - 87)%N
  else if (65 <=? n)%N && (n <=? 70)%N then Some (n - 55)%N
  else None.

(** The lower-case digit [str] prints for a value below 16. *)
Definition hex_digit (v : N) : ascii :=
  if (v <? 10)%N then ascii_of_N (48 + v) else ascii_of_N (87 + v).

(** The bytes a string of hexadecimal digits spells, two digits a byte:
    [bytes.fromhex] on a string without blanks. *)
Fixpoint fromhex (s : string) : option (list byte) :=
  match s with
  | EmptyString => Some []
  | String hi (String lo r) =>
      match hex_val hi, hex_val lo, fromhex r with
      | Some h, Some l, Some bs =>
          match Byte.of_N (16 * h + l) with
          | Some b => Some (b :: bs)
          | None => None
          end
      | _, _, _ => None
      end
  | String _ EmptyString => None
  end.

(** [binascii.hexlify]: two lower-case digits per byte. *)
Fixpoint hexlify (bs : list byte) : string :=
  match bs with
  | [] => EmptyString
  | b :: r =>
      let n := Byte.to_N b in
      String (hex_digit (n / 16)) (String (hex_digit (n mod 16)) (hexlify r))
  end.

(** An [ObjectId] is its 12-byte binary value. *)
Record ObjectId : Type := mkObjectId {
  binary : list byte;
  binary_len : Nat.eqb (List.length binary) 12 = true
}.

(** [str(oid)]: the 24-character lower-case hexadecimal form. *)
Definition str (o : ObjectId) : string := hexlify (binary o).

Definition of_bytes (bs : list byte) : option ObjectId :=
  match Nat.eqb (List.length bs) 12 as b
        return (Nat.eqb (List.length bs) 12 = b -> option ObjectId) with
  | true => fun H => Some (mkObjectId bs H)
  | false => fun _ => None
  end eq_refl.

(** The object id a string of exactly 24 hexadecimal digits spells, its
proper string form in either case of the letters; [None] for every other
string. [ObjectId(s)] itself accepts more, see [construct]. *)
Definition parse (s : string) : option ObjectId :=
  if Nat.eqb (String.length s) 24 then
    match fromhex s with
    | Some bs => of_bytes bs
    | None => None
    end
  else None.

Definition byte_eqb (a b : byte) : bool := N.eqb (Byte.to_N a) (Byte.to_N b).

Fixpoint bytes_eqb (x y : list byte) : bool :=
  match x, y with
  | [], [] => true
  | a :: x', b :: y' => byte_eqb a b && bytes_eqb x' y'
  | _, _ => false
  end.

(** [a == b] on object ids. *)
Definition eqb (a b : ObjectId) : bool := bytes_eqb (binary a) (binary b).

(** ASCII whitespace: space, and tab to carriage return. *)
Definition is_space (c : ascii) : bool :=
  let n := N_of_ascii c in
  (n =? 32)%N || ((9 <=? n)%N && (n <=? 13)%N).

(** [bytes.fromhex]: two hexadecimal digits a byte, ASCII whitespace
    skipped before each byte and at the end, not between the two digits of
    a byte; [None] for [ValueError]. *)
Fixpoint fromhex_blanks (s : string) : option (list byte) :=
  match s with
  | EmptyString => Some []
  | String c r =>
      if is_space c then fromhex_blanks r
      else
        match r with
        | String lo r' =>
            match hex_val c, hex_val lo, fromhex_blanks r' with
            | Some h, Some l, Some bs =>
                match Byte.of_N (16 * h + l) with
                | Some b => Some (b :: bs)
                | None => None
                end
            | _, _, _ => None
            end
        | EmptyString => None
        end
  end.

(** [ObjectId(s)] for a [str] argument, as [bson] validates it: a string of
    24 characters that [bytes.fromhex] reads, or [InvalidId] (here [None]).
    The value is the bytes read: 12 when the string is 24 digits, fewer
    when it has blanks. *)
Definition construct (s : string) : option (list byte) :=
  if Nat.eqb (String.length s) 24 then fromhex_blanks s else None.

End BSON.

(** A reading of [datetime.utcnow()]; only stored and returned, never
    computed with. *)
Definition datetime : Type := Z.

(* ================================================================= *)
(** ** The models of [schemas.py] and the request bodies of [main.py] *)

Module Plan.
Record t : Type := mk {
  name : string;
  description : string;
  price : float;
  features : list string
}.
End Plan.

Module Order.
Record t : Type := mk {
  plan_id : string;
  plan_name : string;
  plan_price : float;
  first_name : string;
  last_name : string;
  email : string;
  phone : option string;
  address_line1 : string;
  address_line2 : option string;
  city : string;
  state : option string;
  postal_code : string;
  country : string;
  notes : option string;
  status : string;
  payment_reference : option string;
  total : float
}.
End Order.

Module CreateOrderBody.
Record t : Type := mk {
  plan_id : string;
  first_name : string;
  last_name : string;
  email : string;
  phone : option string;
  address_line1 : string;
  address_line2 : option string;
  city : string;
  state : option string;
  postal_code : string;
  country : string;
  notes : option string
}.
End CreateOrderBody.

Module PaymentBody.
Record t : Type := mk {
  method : string;
  token : option string
}.
(** [PaymentBody()] with its field defaults. *)
Definition default : t := {| method := "card"; token := None |}.
End PaymentBody.

(* ================================================================= *)
(** ** The document store *)

Module Mongo.

(** A stored document without its [_id]: the fields of the model and the
    two timestamps every document of this service carries. *)
Record Document (A : Type) : Type := mkDocument {
  data : A;
  created_at : datetime;
  updated_at : datetime
}.
Arguments mkDocument {A} _ _ _.
Arguments data {A} _.
Arguments created_at {A} _.
Arguments updated_at {A} _.

(** A collection, in insertion order, keyed by [_id]. *)
Definition Collection (A : Type) : Type := list (BSON.ObjectId * Document A).

Section Collection.
Context {A : Type}.

(** [coll.find_one({"_id": i})]. *)
Fixpoint find_one (i : BSON.ObjectId) (c : Collection A)
  : option (BSON.ObjectId * Document A) :=
  match c with
  | [] => None
  | (k, d) :: r => if BSON.eqb k i then Some (k, d) else find_one i r
  end.

(** [list(coll.find({}))]. *)
Definition find (c : Collection A) : list (BSON.ObjectId * Document A) := c.

(** [coll.insert_one(doc)] with the generated [_id] [i]; [None] stands
    for the [DuplicateKeyError] of the unique index on [_id]. *)
Definition insert_one (i : BSON.ObjectId) (d : Document A) (c : Collection A)
  : option (Collection A) :=
  match find_one i c with
  | Some _ => None
  | None => Some (c ++ [(i, d)])%list
  end.

(** [coll.insert_many(docs)], ordered: it stops at the first document
    that cannot be inserted and keeps the ones before it. The flag says
    whether every document went in. *)
Fixpoint insert_many (ds : list (BSON.ObjectId * Document A)) (c : Collection A)
  : bool * Collection A :=
  match ds with
  | [] => (true, c)
  | (i, d) :: r =>
      match insert_one i d c with
      | Some c' => insert_many r c'
      | None => (false, c)
      end
  end.

(** [coll.update_one({"_id": i}, {"$set": ...})], the [$set] given as the
    function it applies to the first matching document. *)
Fixpoint update_one (i : BSON.ObjectId) (f : Document A -> Document A)
         (c : Collection A) : Collection A :=
  match c with
  | [] => []
  | (k, d) :: r =>
      if BSON.eqb k i then (k, f d) :: r else (k, d) :: update_one i f r
  end.

Definition ids (c : Collection A) : list BSON.ObjectId := map fst c.

(** [coll.find_one({"_id": q})] for an object id [q] constructed from a
string. Every stored [_id] is generated by the driver and has 12 bytes, so
a [q] of another length is the [_id] of no document. *)
Definition find_one_by (q : list byte) (c : Collection A)
  : option (BSON.ObjectId * Document A) :=
  match BSON.of_bytes q with
  | Some i => find_one i c
  | None => None
  end.

(** [coll.update_one({"_id": q}, {"$set": ...})], likewise. *)
Definition update_one_by (q : list byte) (f : Document A -> Document A)
           (c : Collection A) : Collection A :=
  match BSON.of_bytes q with
  | Some i => update_one i f c
  | None => c
  end.

End Collection.

(** The database: the two collections the routes name. *)
Record Database : Type := mkDatabase {
  plan : Collection Plan.t;
  order : Collection Order.t
}.

End Mongo.

Import Mongo.

(* ================================================================= *)
(** ** Handlers: exceptions and the global [db] *)

Inductive Exception : Type :=
| HTTPException (status_code : Z) (detail : string)
| InvalidId
| DuplicateKeyError
| BulkWriteError
| TypeError
| NotImplementedError.

Inductive Result (A : Type) : Type :=
| Return (a : A)
| Raise (e : Exception).
Arguments Return {A} _.
Arguments Raise {A} _.

(** The module-level [db] of [database.py]: [None] when the store is not
    configured. A handler reads and writes it and returns or raises; what
    it wrote before raising stays written. *)
Definition M (A : Type) : Type := option Database -> Result A * option Database.

Definition ret {A} (a : A) : M A := fun db => (Return a, db).

Definition raise {A} (e : Exception) : M A := fun db => (Raise e, db).

Definition bind {A B} (m : M A) (k : A -> M B) : M B :=
  fun db =>
    match m db with
    | (Return a, db') => k a db'
    | (Raise e, db') => (Raise e, db')
    end.

Notation "x <- m ;; k" := (bind m (fun x => k))
  (at level 61, m at next level, right associativity).
Notation "m ;;; k" := (bind m (fun _ => k))
  (at level 61, right associativity).

Definition get_db : M (option Database) := fun db => (Return db, db).

(** [db[...]] and a call on it; subscripting [None] is a [TypeError]. *)
Definition with_db {A} (f : Database -> Result A * Database) : M A :=
  fun db =>
    match db with
    | None => (Raise TypeError, None)
    | Some d => let (r, d') := f d in (r, Some d')
    end.

(** What the client sees: FastAPI answers an [HTTPException] with its status
    code, any other exception with 500, a returned value with 200. *)
Definition status_code_of {A} (r : Result A) : Z :=
  match r with
  | Return _ => 200
  | Raise (HTTPException c _) => c
  | Raise _ => 500
  end.

(** What the driver and the clock supply when one document is inserted: the
    generated [_id] and the two readings of the clock. *)
Record Generated : Type := mkGenerated {
  generated_id : BSON.ObjectId;
  created_now : datetime;
  updated_now : datetime
}.

(** The three insertions of the seeding. *)
Record SeedEnv : Type := mkSeedEnv {
  seed_essential : Generated;
  seed_couples : Generated;
  seed_premium : Generated
}.

(** The two readings of the clock in [pay_order]:
    [int(datetime.utcnow().timestamp())] and [datetime.utcnow()]. *)
Record PayClock : Type := mkPayClock {
  timestamp : Z;
  utcnow : datetime
}.

(** A response document: the stored document with ["_id"] replaced by
    ["id"]. *)
Record Out (I A : Type) : Type := mkOut {
  id : I;
  fields : Document A
}.
Arguments mkOut {I A} _ _.
Arguments id {I A} _.
Arguments fields {I A} _.

(* ================================================================= *)
(** ** Helpers of [main.py] *)

(** [oid]: any exception of [ObjectId(oid_str)] becomes a 400. *)
Definition oid (oid_str : string) : M (list byte) :=
  match BSON.construct oid_str with
  | Some o => ret o
  | None => raise (HTTPException 400 "Invalid ID format")
  end.

Definition defaults : list Plan.t :=
  [ {| Plan.name := "Essential Will";
       Plan.description := "A legally valid simple Will for a single person.";
       Plan.price := 79%float;
       Plan.features := [ "Legally valid simple Will";
                          "Appointment of executors";
                          "Basic gifts and bequests" ] |};
    {| Plan.name := "Couples Will";
       Plan.description := "Mirror Wills for couples with aligned wishes.";
       Plan.price := 129%float;
       Plan.features := [ "Two matching Wills";
                          "Guardians for children";
                          "Replacement executors" ] |};
    {| Plan.name := "Premium Estate Plan";
       Plan.description :=
         "Comprehensive Will with additional estate planning guidance.";
       Plan.price := 199%float;
       Plan.features := [ "Complex gifts and trusts";
                          "Digital asset wishes";
                          "One review session" ] |} ].

(** The loop of lines 73-75 and the [_id]s [insert_many] generates. *)
Definition stamp (gp : Generated * Plan.t) : BSON.ObjectId * Document Plan.t :=
  let (g, p) := gp in
  (generated_id g, mkDocument p (created_now g) (updated_now g)).

Definition stamped (e : SeedEnv) : list (BSON.ObjectId * Document Plan.t) :=
  map stamp (combine [seed_essential e; seed_couples e; seed_premium e] defaults).

Definition plan_find : M (list (BSON.ObjectId * Document Plan.t)) :=
  with_db (fun d => (Return (find (plan d)), d)).

Definition plan_insert_many (ds : list (BSON.ObjectId * Document Plan.t)) : M unit :=
  with_db (fun d =>
    let (ok, c) := insert_many ds (plan d) in
    ((if ok then Return tt else Raise BulkWriteError),
     {| plan := c; order := order d |})).

(** [o is not None]. *)
Definition is_not_None {A} (o : option A) : bool :=
  match o with Some _ => true | None => false end.

(** [bool(db)], the test of [if db] on line 39. [None] is false. A
    configured handle is the pymongo [Database] on which the routes call
    [find], [insert_many], [update_one] and [list_collection_names]
    ([database.py] is not among the sources); it does not implement truth
    value testing, and [bool] raises [NotImplementedError]. Every other
    test of [db] in [main.py] compares it with [None]. *)
Definition truth (db : option Database) : M bool :=
  match db with
  | None => ret false
  | Some _ => raise NotImplementedError
  end.

Definition is_empty {A} (l : list A) : bool :=
  match l with [] => true | _ :: _ => false end.

(** [ensure_default_plans]. *)
Definition ensure_default_plans (e : SeedEnv)
  : M (list (BSON.ObjectId * Document Plan.t)) :=
  db <- get_db ;;
  t <- truth db ;;
  existing <- (if t then plan_find else ret []) ;;
  if is_empty existing && is_not_None db then
    plan_insert_many (stamped e) ;;;
    plan_find
  else ret existing.

Definition order_find_one (i : list byte)
  : M (option (BSON.ObjectId * Document Order.t)) :=
  with_db (fun d => (Return (find_one_by i (order d)), d)).

Definition plan_find_one (i : list byte)
  : M (option (BSON.ObjectId * Document Plan.t)) :=
  with_db (fun d => (Return (find_one_by i (plan d)), d)).

Definition order_update_one (i : list byte)
           (f : Document Order.t -> Document Order.t) : M unit :=
  with_db (fun d =>
    (Return tt, {| plan := plan d; order := update_one_by i f (order d) |})).

(** Modelled from the spec: [create_document] of [database.py], which is not
    among the sources, at its only call, [create_document("order", order)].
    The spec names "insert document" as the store's interface (section 1),
    gives every order its created and updated timestamps (section 3) and has
    [create_order] persist the order and read it back by the returned id
    (section 4.2): the document is the model's fields and the two
    timestamps, it is inserted under a generated [_id], and the string form
    of that [_id] is returned. *)
Definition create_document (g : Generated) (o : Order.t) : M string :=
  with_db (fun d =>
    match insert_one (generated_id g)
                     (mkDocument o (created_now g) (updated_now g)) (order d) with
    | Some c => (Return (BSON.str (generated_id g)),
                 {| plan := plan d; order := c |})
    | None => (Raise DuplicateKeyError, d)
    end).

(** [ObjectId(s)] outside [oid]: [InvalidId] is not caught. *)
Definition ObjectId_of (s : string) : M (list byte) :=
  match BSON.construct s with
  | Some o => ret o
  | None => raise InvalidId
  end.

(** [doc["id"] = str(doc["_id"]) ; doc.pop("_id", None)] on the result of a
    [find_one]; subscripting [None] is a [TypeError]. *)
Definition with_id {A} (doc : option (BSON.ObjectId * Document A))
  : M (Out string A) :=
  match doc with
  | Some (i, d) => ret (mkOut (BSON.str i) d)
  | None => raise TypeError
  end.

(** The [$set] of [pay_order]. *)
Definition set_paid (payment_ref : string) (now : datetime)
           (d : Document Order.t) : Document Order.t :=
  let o := data d in
  mkDocument
    {| Order.plan_id := Order.plan_id o;
       Order.plan_name := Order.plan_name o;
       Order.plan_price := Order.plan_price o;
       Order.first_name := Order.first_name o;
       Order.last_name := Order.last_name o;
       Order.email := Order.email o;
       Order.phone := Order.phone o;
       Order.address_line1 := Order.address_line1 o;
       Order.address_line2 := Order.address_line2 o;
       Order.city := Order.city o;
       Order.state := Order.state o;
       Order.postal_code := Order.postal_code o;
       Order.country := Order.country o;
       Order.notes := Order.notes o;
       Order.status := "paid";
       Order.payment_reference := Some payment_ref;
       Order.total := Order.total o |}
    (created_at d)
    now.

(* ================================================================= *)
(** ** Routes *)

Definition not_configured {A} : M A :=
  raise (HTTPException 500 "Database not configured").

(** [GET /api/plans]. Every document a [find] returns has its ["_id"], so
    ["id"] is always the string; [None] is kept as the type of the
    [else] branch of line 112. *)
Definition list_plans (e : SeedEnv) : M (list (Out (option string) Plan.t)) :=
  db <- get_db ;;
  if is_not_None db then
    plans <- ensure_default_plans e ;;
    ret (map (fun p => mkOut (Some (BSON.str (fst p))) (snd p)) plans)
  else not_configured.

(** The [OrderSchema(...)] of lines 126-142; [status] and
    [payment_reference] take the defaults of the model. [float(...)] leaves
    the stored price, a float, as it is. *)
Definition new_order (plan_doc : BSON.ObjectId * Document Plan.t)
           (body : CreateOrderBody.t) : Order.t :=
  {| Order.plan_id := BSON.str (fst plan_doc);
     Order.plan_name := Plan.name (data (snd plan_doc));
     Order.plan_price := Plan.price (data (snd plan_doc));
     Order.first_name := CreateOrderBody.first_name body;
     Order.last_name := CreateOrderBody.last_name body;
     Order.email := CreateOrderBody.email body;
     Order.phone := CreateOrderBody.phone body;
     Order.address_line1 := CreateOrderBody.address_line1 body;
     Order.address_line2 := CreateOrderBody.address_line2 body;
     Order.city := CreateOrderBody.city body;
     Order.state := CreateOrderBody.state body;
     Order.postal_code := CreateOrderBody.postal_code body;
     Order.country := CreateOrderBody.country body;
     Order.notes := CreateOrderBody.notes body;
     Order.status := "created";
     Order.payment_reference := None;
     Order.total := Plan.price (data (snd plan_doc)) |}.

(** [POST /api/orders]. *)
Definition create_order (g : Generated) (body : CreateOrderBody.t)
  : M (Out string Order.t) :=
  db <- get_db ;;
  if is_not_None db then
    i <- oid (CreateOrderBody.plan_id body) ;;
    plan_doc <- plan_find_one i ;;
    match plan_doc with
    | None => raise (HTTPException 404 "Plan not found")
    | Some plan_doc =>
        let order := new_order plan_doc body in
        inserted_id <- create_document g order ;;
        i' <- ObjectId_of inserted_id ;;
        created <- order_find_one i' ;;
        with_id created
    end
  else not_configured.

(** [GET /api/orders/{order_id}]. *)
Definition get_order (order_id : string) : M (Out string Order.t) :=
  db <- get_db ;;
  if is_not_None db then
    i <- oid order_id ;;
    doc <- order_find_one i ;;
    match doc with
    | None => raise (HTTPException 404 "Order not found")
    | Some _ => with_id doc
    end
  else not_configured.

(** The f-string of line 170. *)
Definition payment_ref (order_id : string) (ts : Z) : string :=
  "PMT-" ++ Str.upper (Str.suffix 6 order_id) ++ "-" ++ Str.of_int ts.

(** [POST /api/orders/{order_id}/pay]. *)
Definition pay_order (clk : PayClock) (order_id : string) (body : PaymentBody.t)
  : M (Out string Order.t) :=
  db <- get_db ;;
  if is_not_None db then
    i <- oid order_id ;;
    doc <- order_find_one i ;;
    match doc with
    | None => raise (HTTPException 404 "Order not found")
    | Some _ =>
        let payment_ref := payment_ref order_id (timestamp clk) in
        i1 <- oid order_id ;;
        order_update_one i1 (set_paid payment_ref (utcnow clk)) ;;;
        i2 <- oid order_id ;;
        updated <- order_find_one i2 ;;
        with_id updated
    end
  else not_configured.

(** The requests of the service. [read_root] and [test_database] only read;
    their responses are no part of this development. *)
Inductive Request : Type :=
| ReadRoot
| ListPlans (e : SeedEnv)
| CreateOrder (g : Generated) (body : CreateOrderBody.t)
| GetOrder (order_id : string)
| PayOrder (clk : PayClock) (order_id : string) (body : PaymentBody.t)
| TestDatabase.

(** The store after a request. *)
Definition handle (db : option Database) (r : Request) : option Database :=
  match r with
  | ReadRoot => db
  | ListPlans e => snd (list_plans e db)
  | CreateOrder g body => snd (create_order g body db)
  | GetOrder order_id => snd (get_order order_id db)
  | PayOrder clk order_id body => snd (pay_order clk order_id body db)
  | TestDatabase => db
  end.

Definition run (db : option Database) (rs : list Request) : option Database :=
  fold_left handle rs db.

(* ================================================================= *)
(** ** The diagnostic route *)

Module Diag.

(** The response dictionary of [test_database]. *)
Record t : Type := mk {
  backend : string;
  database : string;
  database_url : option string;
  database_name : option string;
  connection_status : string;
  collections : list string
}.

(** [response[key] = value], one function per key. *)
Definition set_database (v : string) (r : t) : t :=
  {| backend := backend r; database := v; database_url := database_url r;
     database_name := database_name r;
     connection_status := connection_status r; collections := collections r |}.

Definition set_database_url (v : option string) (r : t) : t :=
  {| backend := backend r; database := database r; database_url := v;
     database_name := database_name r;
     connection_status := connection_status r; collections := collections r |}.

Definition set_database_name (v : option string) (r : t) : t :=
  {| backend := backend r; database := database r;
     database_url := database_url r; database_name := v;
     connection_status := connection_status r; collections := collections r |}.

Definition set_connection_status (v : string) (r : t) : t :=
  {| backend := backend r; database := database r;
     database_url := database_url r; database_name := database_name r;
     connection_status := v; collections := collections r |}.

Definition set_collections (v : list string) (r : t) : t :=
  {| backend := backend r; database := database r;
     database_url := database_url r; database_name := database_name r;
     connection_status := connection_status r; collections := v |}.

End Diag.

(** The truth value of what [os.getenv] returns: [None] and the empty
    string are false. *)
Definition getenv_truth (v : option string) : bool :=
  match v with
  | Some (String _ _) => true
  | _ => false
  end.

(** [GET /test]. Besides [db] it reads [db.name] ([name], [None] when
    [hasattr(db, 'name')] is false), [db.list_collection_names()]
    ([listing]: the names, or the text of the exception it raised) and the
    environment ([getenv]). [str(e)[:50]] is the first 50 characters of the
    text, which is not the first 50 bytes when the text is not ASCII.
    Nothing else in the outer [try] raises, so its handler is not
    reached. *)
Definition test_database (db : option Database) (name : option string)
           (listing : string + list string)
           (getenv : string -> option string) : Diag.t :=
  let response :=
    {| Diag.backend := "✅ Running";
       Diag.database := "❌ Not Available";
       Diag.database_url := None;
       Diag.database_name := None;
       Diag.connection_status := "Not Connected";
       Diag.collections := [] |} in
  let response :=
    if is_not_None db then
      let response := Diag.set_database "✅ Available" response in
      let response := Diag.set_database_url (Some "✅ Configured") response in
      let response :=
        Diag.set_database_name
          (Some (match name with Some n => n | None => "✅ Connected" end))
          response in
      let response := Diag.set_connection_status "Connected" response in
      match listing with
      | inr collections =>
          let response := Diag.set_collections (firstn 10 collections) response in
          Diag.set_database "✅ Connected & Working" response
      | inl e =>
          Diag.set_database
            ("⚠️  Connected but Error: " ++ Str.take_chars 50 e) response
      end
    else Diag.set_database "⚠️  Available but not initialized" response in
  let response :=
    Diag.set_database_url
      (Some (if getenv_truth (getenv "DATABASE_URL")
             then "✅ Set" else "❌ Not Set")) response in
  let response :=
    Diag.set_database_name
      (Some (if getenv_truth (getenv "DATABASE_NAME")
             then "✅ Set" else "❌ Not Set")) response in
  response.

(* ================================================================= *)
(** ** Vocabulary of the statements *)

Definition orders_of (db : option Database) : Collection Order.t :=
  match db with Some d => order d | None => [] end.

Definition plans_of (db : option Database) : Collection Plan.t :=
  match db with Some d => plan d | None => [] end.

(** Two stored orders agree on everything except [status],
    [payment_reference] and [updated_at]. *)
Definition same_but_payment (a b : Document Order.t) : Prop :=
  Order.plan_id (data a) = Order.plan_id (data b) /\
  Order.plan_name (data a) = Order.plan_name (data b) /\
  Order.plan_price (data a) = Order.plan_price (data b) /\
  Order.first_name (data a) = Order.first_name (data b) /\
  Order.last_name (data a) = Order.last_name (data b) /\
  Order.email (data a) = Order.email (data b) /\
  Order.phone (data a) = Order.phone (data b) /\
  Order.address_line1 (data a) = Order.address_line1 (data b) /\
  Order.address_line2 (data a) = Order.address_line2 (data b) /\
  Order.city (data a) = Order.city (data b) /\
  Order.state (data a) = Order.state (data b) /\
  Order.postal_code (data a) = Order.postal_code (data b) /\
  Order.country (data a) = Order.country (data b) /\
  Order.notes (data a) = Order.notes (data b) /\
  Order.total (data a) = Order.total (data b) /\
  created_at a = created_at b.

(** The status of a stored order is one of the two the service sets. *)
Definition created_or_paid (kd : BSON.ObjectId * Document Order.t) : Prop :=
  Order.status (data (snd kd)) = "created" \/ Order.status (data (snd kd)) = "paid".

(** The ids the driver generated for the [create_order] requests of a run. *)
Definition created_ids (rs : list Request) : list BSON.ObjectId :=
  flat_map (fun r => match r with
                     | CreateOrder g _ => [generated_id g]
                     | _ => []
                     end) rs.

(** What one request can do to the store, at most: nothing, seed the plans
    of a store without any (the branch of [ensure_default_plans] behind the
    truth test of line 39), append one order under a fresh id, or apply the
    [$set] of [pay_order] to one stored order. *)
Inductive effect : option Database -> Request -> option Database -> Prop :=
| effect_none db r :
    effect db r db
| effect_seed d e c :
    plan d = [] ->
    effect (Some d) (ListPlans e) (Some {| plan := c; order := order d |})
| effect_create d g body p :
    ~ In (generated_id g) (ids (order d)) ->
    effect (Some d) (CreateOrder g body)
           (Some {| plan := plan d;
                    order := (order d ++
                      [(generated_id g,
                        mkDocument (new_order p body)
                                   (created_now g) (updated_now g))])%list |})
| effect_pay d clk order_id body i doc :
    BSON.parse order_id = Some i ->
    find_one i (order d) = Some (i, doc) ->
    effect (Some d) (PayOrder clk order_id body)
           (Some {| plan := plan d;
                    order := update_one i
                               (set_paid (payment_ref order_id (timestamp clk))
                                         (utcnow clk))
                               (order d) |}).

(** The total of a stored order is the plan price it was created with. *)
Definition total_is_price (kd : BSON.ObjectId * Document Order.t) : Prop :=
  Order.total (data (snd kd)) = Order.plan_price (data (snd kd)).

(** A stored order has a payment reference exactly when it is paid. *)
Definition reference_iff_paid (kd : BSON.ObjectId * Document Order.t) : Prop :=
  (Order.status (data (snd kd)) = "created" /\
   Order.payment_reference (data (snd kd)) = None) \/
  (Order.status (data (snd kd)) = "paid" /\
   exists ref, Order.payment_reference (data (snd kd)) = Some ref).

(** The order carries the customer fields of the request body. *)
Definition customer_of (body : CreateOrderBody.t) (o : Order.t) : Prop :=
  Order.first_name o = CreateOrderBody.first_name body /\
  Order.last_name o = CreateOrderBody.last_name body /\
  Order.email o = CreateOrderBody.email body /\
  Order.phone o = CreateOrderBody.phone body /\
  Order.address_line1 o = CreateOrderBody.address_line1 body /\
  Order.address_line2 o = CreateOrderBody.address_line2 body /\
  Order.city o = CreateOrderBody.city body /\
  Order.state o = CreateOrderBody.state body /\
  Order.postal_code o = CreateOrderBody.postal_code body /\
  Order.country o = CreateOrderBody.country body /\
  Order.notes o = CreateOrderBody.notes body.

(** A request that only reads. *)
Definition reads_only (r : Request) : bool :=
  match r with
  | ReadRoot | GetOrder _ | TestDatabase => true
  | _ => false
  end.

(* ================================================================= *)
(** ** A concrete store and concrete requests *)

Module Sample.
Local Open Scope Z_scope.

(** An object id that differs from the others of this module in its last
    byte. *)
Definition oid_ending (b : byte) : BSON.ObjectId :=
  BSON.mkObjectId [x65; xa1; xb2; xc3; xd4; xe5; xf6; x07; x18; x29; x3a; b]
                  eq_refl.

Definition seed : SeedEnv :=
  {| seed_essential := mkGenerated (oid_ending x01) 1700000000 1700000001;
     seed_couples := mkGenerated (oid_ending x02) 1700000002 1700000003;
     seed_premium := mkGenerated (oid_ending x03) 1700000004 1700000005 |}.

Definition empty : Database := {| plan := []; order := [] |}.

(** The store once seeded. *)
Definition seeded : Database := {| plan := stamped seed; order := [] |}.

Definition essential : Document Plan.t :=
  mkDocument (nth 0 defaults (Plan.mk "" "" 0%float [])) 1700000000 1700000001.

(** Jane Doe orders the Essential Will. *)
Definition jane : CreateOrderBody.t :=
  {| CreateOrderBody.plan_id := "65a1b2c3d4e5f60718293a01";
     CreateOrderBody.first_name := "Jane";
     CreateOrderBody.last_name := "Doe";
     CreateOrderBody.email := "jane@example.com";
     CreateOrderBody.phone := None;
     CreateOrderBody.address_line1 := "1 High Street";
     CreateOrderBody.address_line2 := None;
     CreateOrderBody.city := "Leeds";
     CreateOrderBody.state := None;
     CreateOrderBody.postal_code := "LS1 1AA";
     CreateOrderBody.country := "GB";
     CreateOrderBody.notes := None |}.

Definition jane_generated : Generated :=
  mkGenerated (oid_ending x0a) 1700000100 1700000101.

Definition jane_id : string := "65a1b2c3d4e5f60718293a0a".

Definition jane_order : Document Order.t :=
  mkDocument (new_order (oid_ending x01, essential) jane) 1700000100 1700000101.

(** The store with Jane's order in it. *)
Definition ordered : Database :=
  {| plan := stamped seed; order := [(oid_ending x0a, jane_order)] |}.

Definition clock1 : PayClock := {| timestamp := 1700000200; utcnow := 1700000201 |}.
Definition clock2 : PayClock := {| timestamp := 1700000300; utcnow := 1700000301 |}.

Definition token_body : PaymentBody.t :=
  {| PaymentBody.method := "transfer"; PaymentBody.token := Some "tok_1" |}.

(** Jane's id as a client may also spell it. *)
Definition jane_id_upper : string := "65A1B2C3D4E5F60718293A0A".

(** A second generated id, for a second order, and one that agrees with
    Jane's in its last three bytes. *)
Definition second_generated : Generated :=
  mkGenerated (oid_ending x0b) 1700000400 1700000401.

Definition lookalike_id : string := "0000000000000000ff293a0a".

(** The environment of a deployed service. *)
Definition getenv (k : string) : option string :=
  if String.eqb k "DATABASE_URL" then Some "mongodb://db:27017"
  else if String.eqb k "DATABASE_NAME" then Some "wills"
  else None.

(** The object id [lookalike_id] spells, and a store holding an order
    under it beside Jane's. *)
Definition lookalike : BSON.ObjectId :=
  BSON.mkObjectId [x00; x00; x00; x00; x00; x00; x00; x00; xff; x29; x3a; x0a]
                  eq_refl.

Definition two_orders : Database :=
  {| plan := stamped seed;
     order := [(oid_ending x0a, jane_order); (lookalike, jane_order)] |}.




End Sample.

(* ================================================================= *)
(** ** Tactics *)

(** Run a handler: unfold the monad and the store primitives. *)
Ltac run_M :=
  cbv beta iota zeta delta
    [bind ret raise get_db with_db not_configured oid ObjectId_of with_id
     plan_find plan_find_one order_find_one order_update_one
     plan_insert_many create_document truth is_not_None is_empty andb].

Ltac run_with H := rewrite H; run_M.

(* ================================================================= *)
(** * Properties *)

(** ** Object ids and their string form *)

Module BSONFacts.
Import BSON.

Lemma byte_eqb_eq (a b : byte) : byte_eqb a b = true <-> a = b.
Proof.
  unfold byte_eqb. rewrite N.eqb_eq. split; [| congruence].
  intro H. apply (f_equal Byte.of_N) in H.
  rewrite !Byte.of_to_N in H. congruence.
Qed.

Lemma bytes_eqb_eq (x y : list byte) : bytes_eqb x y = true <-> x = y.
Proof.
  revert y. induction x as [|a x IH]; intros [|b y]; simpl;
    try (split; [discriminate | congruence]); [tauto|].
  rewrite andb_true_iff, byte_eqb_eq, IH.
  split; [intros [-> ->]; reflexivity | intros H; injection H; auto].
Qed.

(** Two object ids with the same bytes are the same object id. *)
Lemma binary_inj (a b : ObjectId) : binary a = binary b -> a = b.
Proof.
  destruct a as [x Hx], b as [y Hy]. simpl. intros ->.
  f_equal. apply UIP_dec. apply bool_dec.
Qed.

Lemma oid_eqb_eq (a b : ObjectId) : eqb a b = true <-> a = b.
Proof.
  unfold eqb. rewrite bytes_eqb_eq.
  split; [apply binary_inj | congruence].
Qed.

Lemma oid_eqb_refl (a : ObjectId) : eqb a a = true.
Proof. apply oid_eqb_eq. reflexivity. Qed.

Lemma oid_eqb_neq (a b : ObjectId) : eqb a b = false <-> a <> b.
Proof.
  rewrite <- oid_eqb_eq. destruct (eqb a b); split; congruence.
Qed.

Lemma oid_eqb_sym (a b : ObjectId) : eqb a b = eqb b a.
Proof.
  destruct (eqb b a) eqn:E.
  - apply oid_eqb_eq in E. subst. apply oid_eqb_refl.
  - apply oid_eqb_neq. apply oid_eqb_neq in E. congruence.
Qed.

(** One byte printed and read back. *)
Lemma byte_roundtrip (b : byte) :
  match hex_val (hex_digit (Byte.to_N b / 16)),
        hex_val (hex_digit (Byte.to_N b mod 16)) with
  | Some h, Some l => Byte.of_N (16 * h + l)
  | _, _ => None
  end = Some b.
Proof. destruct b; reflexivity. Qed.

Lemma fromhex_hexlify (bs : list byte) : fromhex (hexlify bs) = Some bs.
Proof.
  induction bs as [|b bs IH]; [reflexivity|].
  cbn [hexlify fromhex]. rewrite IH.
  pose proof (byte_roundtrip b) as R.
  destruct (hex_val (hex_digit (Byte.to_N b / 16))); [|discriminate].
  destruct (hex_val (hex_digit (Byte.to_N b mod 16))); [|discriminate].
  rewrite R. reflexivity.
Qed.

Lemma length_hexlify (bs : list byte) :
  String.length (hexlify bs) = 2 * List.length bs.
Proof. induction bs as [|b bs IH]; simpl; [reflexivity | rewrite IH; lia]. Qed.

Lemma of_bytes_binary (o : ObjectId) : of_bytes (binary o) = Some o.
Proof.
  destruct o as [bs H]. unfold of_bytes. simpl.
  generalize (eq_refl (Nat.eqb (List.length bs) 12)).
  generalize (Nat.eqb (List.length bs) 12) at 2 3.
  intros [] e; [| congruence].
  f_equal. f_equal. apply UIP_dec. apply bool_dec.
Qed.

Lemma length_str (o : ObjectId) : String.length (str o) = 24.
Proof.
  unfold str. rewrite length_hexlify.
  destruct o as [bs H]. simpl. apply Nat.eqb_eq in H. lia.
Qed.

(** [ObjectId(str(o)) == o]. *)
Lemma parse_str (o : ObjectId) : parse (str o) = Some o.
Proof.
  unfold parse. rewrite length_str. simpl.
  unfold str. rewrite fromhex_hexlify. apply of_bytes_binary.
Qed.

(** What [ObjectId] accepts has 24 characters. *)
Lemma parse_length (s : string) (o : ObjectId) :
  parse s = Some o -> String.length s = 24.
Proof.
  unfold parse. destruct (Nat.eqb (String.length s) 24) eqn:E; [|discriminate].
  intros _. apply Nat.eqb_eq. exact E.
Qed.

End BSONFacts.

(** ** Strings *)

Module StrFacts.
Import Str.

Lemma length_upper (s : string) : String.length (upper s) = String.length s.
Proof. induction s as [|c s IH]; simpl; congruence. Qed.

Lemma length_substring (s : string) (n m : nat) :
  n + m <= String.length s -> String.length (substring n m s) = m.
Proof.
  revert n m. induction s as [|c s IH]; intros n m H; simpl in H.
  - assert (n = 0) by lia. assert (m = 0) by lia. subst. reflexivity.
  - destruct n as [|n]; destruct m as [|m]; simpl; try reflexivity.
    + rewrite IH by lia. reflexivity.
    + apply IH. lia.
    + apply IH. lia.
Qed.

(** [len(s[-n:]) == n] on a string of at least [n] characters. *)
Lemma length_suffix (n : nat) (s : string) :
  n <= String.length s -> String.length (suffix n s) = n.
Proof. intro H. unfold suffix. apply length_substring. lia. Qed.

Lemma digits_of_uint (d : Decimal.uint) :
  all is_digit (NilEmpty.string_of_uint d) = true.
Proof. induction d; simpl; auto. Qed.

Lemma nonempty_of_uint (d : Decimal.uint) :
  NilZero.string_of_uint d <> EmptyString.
Proof. destruct d; simpl; discriminate. Qed.

(** [str(z)] of a non-negative [int] is a non-empty run of decimal
    digits. *)
Lemma digits_of_int (z : Z) :
  (0 <= z)%Z -> all is_digit (of_int z) = true /\ of_int z <> EmptyString.
Proof.
  intro H. unfold of_int.
  destruct z as [|p|p]; [split; [reflexivity | discriminate] | | lia].
  cbn [Z.to_int NilZero.string_of_int]. split.
  - unfold NilZero.string_of_uint.
    destruct (Pos.to_uint p) eqn:E; try reflexivity;
      rewrite <- E; apply digits_of_uint.
  - apply nonempty_of_uint.
Qed.

Lemma length_append (a b : string) :
  String.length (a ++ b) = String.length a + String.length b.
Proof. induction a as [|c a IH]; simpl; congruence. Qed.

End StrFacts.

(** ** Collections *)

Module CollectionFacts.
Import BSONFacts.
Local Open Scope list_scope.

Section Facts.
Context {A : Type}.
Implicit Types (c : Collection A) (i j k : BSON.ObjectId) (d : Document A).

(** [find_one] answers with the document stored under the id asked. *)
Lemma find_one_key i c k d : find_one i c = Some (k, d) -> k = i.
Proof.
  induction c as [|[k' d'] c IH]; simpl; [discriminate|].
  destruct (BSON.eqb k' i) eqn:E; [| exact IH].
  intro H. injection H as <- _. apply oid_eqb_eq. exact E.
Qed.

Lemma find_one_In i c k d : find_one i c = Some (k, d) -> In (k, d) c.
Proof.
  induction c as [|[k' d'] c IH]; simpl; [discriminate|].
  destruct (BSON.eqb k' i); [| auto].
  intro H. injection H as <- <-. left. reflexivity.
Qed.

Lemma find_one_None_iff i c : find_one i c = None <-> ~ In i (ids c).
Proof.
  induction c as [|[k d] c IH]; simpl; [tauto|].
  destruct (BSON.eqb k i) eqn:E.
  - apply oid_eqb_eq in E. split; [discriminate | intros H; elim H; auto].
  - apply oid_eqb_neq in E. rewrite IH. tauto.
Qed.

Lemma find_one_Some_iff i c : In i (ids c) <-> exists d, find_one i c = Some (i, d).
Proof.
  split.
  - intro H. destruct (find_one i c) as [[k d]|] eqn:E.
    + exists d. apply find_one_key in E as E'. subst. reflexivity.
    + apply find_one_None_iff in E. contradiction.
  - intros [d H]. destruct (find_one_None_iff i c) as [_ N].
    destruct (in_dec (fun a b => match bool_dec (BSON.eqb a b) true with
                                 | left e => left (proj1 (oid_eqb_eq a b) e)
                                 | right n => right (fun e => n (proj2 (oid_eqb_eq a b) e))
                                 end) i (ids c)) as [I|I]; [exact I|].
    rewrite (N I) in H. discriminate.
Qed.

Lemma find_one_app i c c' :
  find_one i (c ++ c') =
  match find_one i c with Some r => Some r | None => find_one i c' end.
Proof.
  induction c as [|[k d] c IH]; simpl; [reflexivity|].
  destruct (BSON.eqb k i); [reflexivity | exact IH].
Qed.

Lemma insert_one_fresh i d c :
  ~ In i (ids c) -> insert_one i d c = Some (c ++ [(i, d)]).
Proof.
  intro H. unfold insert_one.
  rewrite (proj2 (find_one_None_iff i c) H). reflexivity.
Qed.

Lemma insert_one_Some i d c c' :
  insert_one i d c = Some c' -> c' = c ++ [(i, d)] /\ ~ In i (ids c).
Proof.
  unfold insert_one. destruct (find_one i c) eqn:E; [discriminate|].
  intro H. injection H as <-. split; [reflexivity|].
  apply find_one_None_iff. exact E.
Qed.

(** The inserted document is found under its id. *)
Lemma find_one_inserted i d c :
  ~ In i (ids c) -> find_one i (c ++ [(i, d)]) = Some (i, d).
Proof.
  intro H. rewrite find_one_app.
  rewrite (proj2 (find_one_None_iff i c) H). simpl.
  rewrite oid_eqb_refl. reflexivity.
Qed.

(** Every other lookup is as before the insertion. *)
Lemma find_one_insert_other i j d c :
  j <> i -> find_one j (c ++ [(i, d)]) = find_one j c.
Proof.
  intro H. rewrite find_one_app. destruct (find_one j c); [reflexivity|].
  simpl. rewrite (proj2 (oid_eqb_neq i j)) by congruence. reflexivity.
Qed.

Lemma ids_app c c' : ids (c ++ c') = ids c ++ ids c'.
Proof. apply map_app. Qed.

Lemma ids_update_one i f c : ids (update_one i f c) = ids c.
Proof.
  induction c as [|[k d] c IH]; simpl; [reflexivity|].
  destruct (BSON.eqb k i); simpl; [reflexivity | rewrite IH; reflexivity].
Qed.

(** The updated document is the old one under [f]. *)
Lemma find_one_updated i f c :
  find_one i (update_one i f c) =
  match find_one i c with Some (k, d) => Some (k, f d) | None => None end.
Proof.
  induction c as [|[k d] c IH]; simpl; [reflexivity|].
  destruct (BSON.eqb k i) eqn:E; simpl; rewrite E; [reflexivity | exact IH].
Qed.

(** Every other document is untouched by the update. *)
Lemma find_one_update_other i j f c :
  j <> i -> find_one j (update_one i f c) = find_one j c.
Proof.
  intro H. induction c as [|[k d] c IH]; simpl; [reflexivity|].
  destruct (BSON.eqb k i) eqn:E; simpl.
  - apply oid_eqb_eq in E. subst k.
    rewrite (proj2 (oid_eqb_neq i j)) by congruence. reflexivity.
  - destruct (BSON.eqb k j); [reflexivity | exact IH].
Qed.

Lemma update_one_absent i f c : find_one i c = None -> update_one i f c = c.
Proof.
  induction c as [|[k d] c IH]; simpl; [reflexivity|].
  destruct (BSON.eqb k i); [discriminate|].
  intro H. rewrite (IH H). reflexivity.
Qed.

Lemma length_update_one i f c : List.length (update_one i f c) = List.length c.
Proof.
  rewrite <- (length_map fst (update_one i f c)), <- (length_map fst c).
  change (List.length (ids (update_one i f c)) = List.length (ids c)).
  rewrite ids_update_one. reflexivity.
Qed.

End Facts.

End CollectionFacts.

(** ** Spellings of an object id *)

Module HexFacts.
Import BSON BSONFacts.

(** A hexadecimal digit has a value below 16, and in upper case it is the
    digit [str] prints for that value, in upper case. *)
Lemma hex_val_upper (c : ascii) (v : N) :
  hex_val c = Some v ->
  (v < 16)%N /\ Str.upper_ascii c = Str.upper_ascii (hex_digit v).
Proof.
  destruct c as [[] [] [] [] [] [] [] []]; cbv; intro H;
    try discriminate H; injection H as <-; split; reflexivity.
Qed.

Lemma fromhex_nil_inv (s : string) : fromhex s = Some [] -> s = EmptyString.
Proof.
  destruct s as [|hi [|lo r]]; cbn [fromhex]; try discriminate; [reflexivity|].
  destruct (hex_val hi), (hex_val lo), (fromhex r); try discriminate.
  destruct (Byte.of_N _); discriminate.
Qed.

Lemma fromhex_cons_inv (s : string) (b : byte) (bs : list byte) :
  fromhex s = Some (b :: bs) ->
  exists hi lo r h l,
    s = String hi (String lo r) /\
    hex_val hi = Some h /\ hex_val lo = Some l /\
    Byte.of_N (16 * h + l) = Some b /\ fromhex r = Some bs.
Proof.
  destruct s as [|hi [|lo r]]; cbn [fromhex]; try discriminate.
  destruct (hex_val hi) as [h|] eqn:Hh; [|discriminate].
  destruct (hex_val lo) as [l|] eqn:Hl; [|discriminate].
  destruct (fromhex r) as [bs'|] eqn:Hr; [|discriminate].
  destruct (Byte.of_N (16 * h + l)) as [b'|] eqn:Hb; [|discriminate].
  intro H. injection H as <- <-.
  exists hi, lo, r, h, l. auto.
Qed.

(** Whatever the case of its digits, an accepted string is, in upper case,
    the printed form of its bytes in upper case. *)
Lemma upper_fromhex (bs : list byte) : forall s,
  fromhex s = Some bs -> Str.upper s = Str.upper (hexlify bs).
Proof.
  induction bs as [|b bs IH]; intros s H.
  - apply fromhex_nil_inv in H. subst. reflexivity.
  - apply fromhex_cons_inv in H
      as (hi & lo & r & h & l & -> & Hh & Hl & Hb & Hr).
    apply hex_val_upper in Hh as [Bh Uh]. apply hex_val_upper in Hl as [Bl Ul].
    apply Byte.to_of_N in Hb.
    assert (Byte.to_N b / 16 = h)%N as Dh
        by (rewrite Hb; symmetry; apply (N.div_unique _ 16 h l); lia).
    assert (Byte.to_N b mod 16 = l)%N as Dl
        by (rewrite Hb; symmetry; apply (N.mod_unique _ 16 h l); lia).
    cbn [hexlify Str.upper]. rewrite Dh, Dl, Uh, Ul, (IH r Hr). reflexivity.
Qed.

Lemma of_bytes_Some (bs : list byte) (o : ObjectId) :
  of_bytes bs = Some o -> binary o = bs.
Proof.
  unfold of_bytes.
  generalize (eq_refl (Nat.eqb (List.length bs) 12)).
  generalize (Nat.eqb (List.length bs) 12) at 2 3.
  intros [] e H; [| discriminate]. injection H as <-. reflexivity.
Qed.

Lemma parse_fromhex (s : string) (o : ObjectId) :
  parse s = Some o -> fromhex s = Some (binary o).
Proof.
  unfold parse. destruct (Nat.eqb (String.length s) 24); [|discriminate].
  destruct (fromhex s) as [bs|]; [|discriminate].
  intro H. apply of_bytes_Some in H. congruence.
Qed.

(** Two spellings of one object id differ in the case of their digits
    only. *)
Lemma parse_upper (s : string) (o : ObjectId) :
  parse s = Some o -> Str.upper s = Str.upper (str o).
Proof. intro H. apply upper_fromhex, parse_fromhex, H. Qed.

Lemma upper_substring (s : string) : forall n m,
  Str.upper (substring n m s) = substring n m (Str.upper s).
Proof.
  induction s as [|c s IH]; intros [|n] [|m]; cbn [substring Str.upper];
    try reflexivity; rewrite ?IH; reflexivity.
Qed.

Lemma upper_suffix (n : nat) (s : string) :
  Str.upper (Str.suffix n s) = Str.suffix n (Str.upper s).
Proof.
  unfold Str.suffix. rewrite upper_substring, StrFacts.length_upper. reflexivity.
Qed.

(** The six characters of the payment reference are read off the object
    id, not off its spelling. *)
Lemma upper_suffix_parse (s : string) (o : ObjectId) :
  parse s = Some o ->
  Str.upper (Str.suffix 6 s) = Str.upper (Str.suffix 6 (str o)).
Proof.
  intro H. rewrite !upper_suffix, (parse_upper s o H). reflexivity.
Qed.

(** The last six characters of the printed form are the last three
    bytes. *)
Lemma suffix_str (o : ObjectId) :
  Str.suffix 6 (str o) = hexlify (skipn 9 (binary o)).
Proof.
  destruct o as [bs H]. unfold str. cbn [binary].
  do 12 (destruct bs as [|? bs]; [discriminate H|]).
  destruct bs; [reflexivity | discriminate H].
Qed.

(** A hexadecimal digit is no blank. *)
Lemma hex_not_space (c : ascii) (v : N) :
  hex_val c = Some v -> is_space c = false.
Proof.
  destruct c as [[] [] [] [] [] [] [] []]; cbv; intro H;
    try discriminate H; reflexivity.
Qed.

(** On a string of digits [bytes.fromhex] has nothing to skip. *)
Lemma fromhex_blanks_digits (bs : list byte) : forall s,
  fromhex s = Some bs -> fromhex_blanks s = Some bs.
Proof.
  induction bs as [|b bs IH]; intros s H.
  - apply fromhex_nil_inv in H. subst. reflexivity.
  - apply fromhex_cons_inv in H
      as (hi & lo & r & h & l & -> & Hh & Hl & Hb & Hr).
    cbn [fromhex_blanks].
    rewrite (hex_not_space hi h Hh), Hh, Hl, (IH r Hr), Hb. reflexivity.
Qed.

(** Every byte takes two characters, so a string read to half its length
    in bytes had no blank in it. *)
Lemma fromhex_blanks_length (n : nat) : forall s bs,
  String.length s <= n ->
  fromhex_blanks s = Some bs ->
  2 * List.length bs <= String.length s /\
  (2 * List.length bs = String.length s -> fromhex s = Some bs).
Proof.
  induction n as [|n IH]; intros s bs L H.
  - destruct s; [| cbn [String.length] in L; lia].
    cbn [fromhex_blanks] in H. injection H as <-. split; [cbn; lia | reflexivity].
  - destruct s as [|c r].
    + cbn [fromhex_blanks] in H. injection H as <-.
      split; [cbn; lia | reflexivity].
    + cbn [fromhex_blanks] in H. cbn [String.length] in L |- *.
      destruct (is_space c).
      * destruct (IH r bs ltac:(lia) H) as [B _]. split; lia.
      * destruct r as [|lo r']; [discriminate H|].
        destruct (hex_val c) as [h|] eqn:Hh; [|discriminate H].
        destruct (hex_val lo) as [l|] eqn:Hl; [|discriminate H].
        destruct (fromhex_blanks r') as [bs'|] eqn:Hr; [|discriminate H].
        destruct (Byte.of_N (16 * h + l)) as [b|] eqn:Hb; [|discriminate H].
        injection H as <-. cbn [String.length] in L |- *.
        destruct (IH r' bs' ltac:(lia) Hr) as [B F].
        cbn [List.length]. split; [lia|].
        intro E. cbn [fromhex]. rewrite Hh, Hl, (F ltac:(lia)), Hb. reflexivity.
Qed.

(** [ObjectId] constructs from a proper string form the object id it
    spells. *)
Lemma parse_construct (s : string) (o : ObjectId) :
  parse s = Some o -> construct s = Some (binary o).
Proof.
  intro H. pose proof (parse_fromhex s o H) as F.
  unfold construct. rewrite (parse_length s o H). cbn.
  apply fromhex_blanks_digits. exact F.
Qed.

(** A constructed value of 12 bytes comes from a proper string form. *)
Lemma construct_proper (s : string) (q : list byte) (o : ObjectId) :
  construct s = Some q -> of_bytes q = Some o -> parse s = Some o.
Proof.
  unfold construct, parse. intros C B.
  destruct (Nat.eqb (String.length s) 24) eqn:L; [|discriminate C].
  apply Nat.eqb_eq in L.
  pose proof (of_bytes_Some q o B) as Q.
  pose proof (binary_len o) as Len. rewrite Q in Len. apply Nat.eqb_eq in Len.
  destruct (fromhex_blanks_length (String.length s) s q (le_n _) C) as [_ F].
  rewrite (F ltac:(lia)). exact B.
Qed.


End HexFacts.

(** ** What each route computes *)

Section Routes.
Import BSONFacts CollectionFacts HexFacts.
Local Open Scope list_scope.

Variable d : Database.

(** A query by the bytes of an object id is the query by that id. *)
Lemma find_one_by_binary {A} i (c : Collection A) :
  find_one_by (BSON.binary i) c = find_one i c.
Proof. unfold find_one_by. rewrite of_bytes_binary. reflexivity. Qed.

Lemma update_one_by_binary {A} i f (c : Collection A) :
  update_one_by (BSON.binary i) f c = update_one i f c.
Proof. unfold update_one_by. rewrite of_bytes_binary. reflexivity. Qed.

(** A query that finds a document was made with a proper string form. *)
Lemma find_one_by_Some {A} s q (c : Collection A) p :
  BSON.construct s = Some q ->
  find_one_by q c = Some p ->
  exists i, BSON.parse s = Some i /\ q = BSON.binary i /\ find_one i c = Some p.
Proof.
  intros C F. unfold find_one_by in F.
  destruct (BSON.of_bytes q) as [i|] eqn:B; [| discriminate F].
  exists i. split; [exact (construct_proper s q i C B)|].
  split; [symmetry; exact (of_bytes_Some q i B) | exact F].
Qed.

(** Without a configured store every route that uses it answers 500. *)
Lemma routes_not_configured :
  (forall e, list_plans e None =
             (Raise (HTTPException 500 "Database not configured"), None)) /\
  (forall g body, create_order g body None =
             (Raise (HTTPException 500 "Database not configured"), None)) /\
  (forall order_id, get_order order_id None =
             (Raise (HTTPException 500 "Database not configured"), None)) /\
  (forall clk order_id body, pay_order clk order_id body None =
             (Raise (HTTPException 500 "Database not configured"), None)).
Proof. repeat split. Qed.

Lemma get_order_rejected order_id :
  BSON.construct order_id = None ->
  get_order order_id (Some d) =
  (Raise (HTTPException 400 "Invalid ID format"), Some d).
Proof. intro H. unfold get_order. run_M. run_with H. reflexivity. Qed.

Lemma get_order_unresolved order_id q :
  BSON.construct order_id = Some q ->
  find_one_by q (order d) = None ->
  get_order order_id (Some d) =
  (Raise (HTTPException 404 "Order not found"), Some d).
Proof. intros H F. unfold get_order. run_M. run_with H. run_with F. reflexivity. Qed.

Lemma get_order_absent order_id i :
  BSON.parse order_id = Some i ->
  find_one i (order d) = None ->
  get_order order_id (Some d) =
  (Raise (HTTPException 404 "Order not found"), Some d).
Proof.
  intros H F. apply (get_order_unresolved order_id _ (parse_construct _ _ H)).
  rewrite find_one_by_binary. exact F.
Qed.

Lemma get_order_found order_id i k doc :
  BSON.parse order_id = Some i ->
  find_one i (order d) = Some (k, doc) ->
  get_order order_id (Some d) = (Return (mkOut (BSON.str i) doc), Some d).
Proof.
  intros H F. apply find_one_key in F as E. subst k.
  unfold get_order. run_M. run_with (parse_construct _ _ H).
  rewrite find_one_by_binary. run_with F. reflexivity.
Qed.

Lemma pay_order_rejected clk order_id body :
  BSON.construct order_id = None ->
  pay_order clk order_id body (Some d) =
  (Raise (HTTPException 400 "Invalid ID format"), Some d).
Proof. intro H. unfold pay_order. run_M. run_with H. reflexivity. Qed.

Lemma pay_order_unresolved clk order_id body q :
  BSON.construct order_id = Some q ->
  find_one_by q (order d) = None ->
  pay_order clk order_id body (Some d) =
  (Raise (HTTPException 404 "Order not found"), Some d).
Proof. intros H F. unfold pay_order. run_M. run_with H. run_with F. reflexivity. Qed.

Lemma pay_order_absent clk order_id body i :
  BSON.parse order_id = Some i ->
  find_one i (order d) = None ->
  pay_order clk order_id body (Some d) =
  (Raise (HTTPException 404 "Order not found"), Some d).
Proof.
  intros H F. apply (pay_order_unresolved clk order_id body _ (parse_construct _ _ H)).
  rewrite find_one_by_binary. exact F.
Qed.

Lemma pay_order_found clk order_id body i k doc :
  BSON.parse order_id = Some i ->
  find_one i (order d) = Some (k, doc) ->
  let paid := set_paid (payment_ref order_id (timestamp clk)) (utcnow clk) in
  pay_order clk order_id body (Some d) =
  (Return (mkOut (BSON.str i) (paid doc)),
   Some {| plan := plan d; order := update_one i paid (order d) |}).
Proof.
  intros H F paid. apply find_one_key in F as E. subst k.
  unfold pay_order. run_M. run_with (parse_construct _ _ H).
  rewrite find_one_by_binary. run_with F. cbn [order plan].
  rewrite find_one_by_binary, update_one_by_binary.
  rewrite find_one_updated. run_with F. reflexivity.
Qed.

Lemma create_order_rejected g body :
  BSON.construct (CreateOrderBody.plan_id body) = None ->
  create_order g body (Some d) =
  (Raise (HTTPException 400 "Invalid ID format"), Some d).
Proof. intro H. unfold create_order. run_M. run_with H. reflexivity. Qed.

Lemma create_order_unresolved g body q :
  BSON.construct (CreateOrderBody.plan_id body) = Some q ->
  find_one_by q (plan d) = None ->
  create_order g body (Some d) =
  (Raise (HTTPException 404 "Plan not found"), Some d).
Proof. intros H F. unfold create_order. run_M. run_with H. run_with F. reflexivity. Qed.


Lemma create_order_duplicate g body i p :
  BSON.parse (CreateOrderBody.plan_id body) = Some i ->
  find_one i (plan d) = Some p ->
  In (generated_id g) (ids (order d)) ->
  create_order g body (Some d) = (Raise DuplicateKeyError, Some d).
Proof.
  intros H F I. apply find_one_Some_iff in I as [doc I].
  unfold create_order. run_M. run_with (parse_construct _ _ H).
  rewrite find_one_by_binary. run_with F.
  unfold insert_one. run_with I. reflexivity.
Qed.

Lemma create_order_found g body i p :
  BSON.parse (CreateOrderBody.plan_id body) = Some i ->
  find_one i (plan d) = Some p ->
  ~ In (generated_id g) (ids (order d)) ->
  let doc := mkDocument (new_order p body) (created_now g) (updated_now g) in
  create_order g body (Some d) =
  (Return (mkOut (BSON.str (generated_id g)) doc),
   Some {| plan := plan d; order := order d ++ [(generated_id g, doc)] |}).
Proof.
  intros H F I doc.
  unfold create_order. run_M. run_with (parse_construct _ _ H).
  rewrite find_one_by_binary. run_with F.
  rewrite (insert_one_fresh _ _ _ I). run_M.
  rewrite (parse_construct _ _ (parse_str (generated_id g))). run_M.
  cbn [order]. rewrite find_one_by_binary.
  rewrite (find_one_inserted _ _ _ I). reflexivity.
Qed.

(** On a configured store [list_plans] stops at the truth test of line 39:
    it raises before anything is read or written. *)
Lemma list_plans_raises e :
  list_plans e (Some d) = (Raise NotImplementedError, Some d).
Proof. reflexivity. Qed.

End Routes.

(** ** What a request does to the store *)

Section Effects.
Import BSONFacts CollectionFacts.
Local Open Scope list_scope.

Lemma list_plans_effect e db : effect db (ListPlans e) (snd (list_plans e db)).
Proof.
  destruct db as [d|]; [| apply effect_none].
  rewrite list_plans_raises. apply effect_none.
Qed.

Lemma create_order_effect g body db :
  effect db (CreateOrder g body) (snd (create_order g body db)).
Proof.
  destruct db as [d|]; [| apply effect_none].
  destruct (BSON.construct (CreateOrderBody.plan_id body)) as [q|] eqn:C.
  - destruct (find_one_by q (plan d)) as [p|] eqn:F.
    + destruct (find_one_by_Some _ _ _ _ C F) as (i & P & _ & F').
      destruct (find_one (generated_id g) (order d)) as [[k doc]|] eqn:O.
      * rewrite (create_order_duplicate d g body i p P F').
        -- apply effect_none.
        -- apply find_one_key in O as K. subst k.
           apply find_one_Some_iff. exists doc. exact O.
      * apply find_one_None_iff in O.
        rewrite (create_order_found d g body i p P F' O).
        apply effect_create. exact O.
    + rewrite (create_order_unresolved d g body q C F). apply effect_none.
  - rewrite (create_order_rejected d g body C). apply effect_none.
Qed.

Lemma get_order_effect order_id db : snd (get_order order_id db) = db.
Proof.
  destruct db as [d|]; [| reflexivity].
  destruct (BSON.construct order_id) as [q|] eqn:C.
  - destruct (find_one_by q (order d)) as [[k doc]|] eqn:F.
    + destruct (find_one_by_Some _ _ _ _ C F) as (i & P & _ & F').
      rewrite (get_order_found d order_id i k doc P F'). reflexivity.
    + rewrite (get_order_unresolved d order_id q C F). reflexivity.
  - rewrite (get_order_rejected d order_id C). reflexivity.
Qed.

Lemma pay_order_effect clk order_id body db :
  effect db (PayOrder clk order_id body) (snd (pay_order clk order_id body db)).
Proof.
  destruct db as [d|]; [| apply effect_none].
  destruct (BSON.construct order_id) as [q|] eqn:C.
  - destruct (find_one_by q (order d)) as [[k doc]|] eqn:F.
    + destruct (find_one_by_Some _ _ _ _ C F) as (i & P & _ & F').
      apply find_one_key in F' as K. subst k.
      rewrite (pay_order_found d clk order_id body i i doc P F').
      apply (effect_pay d clk order_id body i doc P F').
    + rewrite (pay_order_unresolved d clk order_id body q C F). apply effect_none.
  - rewrite (pay_order_rejected d clk order_id body C). apply effect_none.
Qed.

(** Every request is one of the four effects. *)
Lemma handle_effect db r : effect db r (handle db r).
Proof.
  destruct r; cbn [handle].
  - apply effect_none.
  - apply list_plans_effect.
  - apply create_order_effect.
  - rewrite get_order_effect. apply effect_none.
  - apply pay_order_effect.
  - apply effect_none.
Qed.


(** An order that is in the store stays, and keeps everything but what
    the [$set] of [pay_order] writes. *)
Lemma effect_frame db r db' i doc :
  effect db r db' ->
  find_one i (orders_of db) = Some (i, doc) ->
  exists doc',
    find_one i (orders_of db') = Some (i, doc') /\
    same_but_payment doc doc' /\
    (doc' = doc \/
     exists clk order_id body,
       r = PayOrder clk order_id body /\
       BSON.parse order_id = Some i /\
       doc' = set_paid (payment_ref order_id (timestamp clk)) (utcnow clk) doc).
Proof.
  assert (same_but_payment doc doc) as R by (repeat split).
  intros [db0 r0 | d e c E | d g body p I | d clk order_id body j doc0 P F] H;
    cbn [orders_of order] in *.
  - exists doc. auto.
  - exists doc. auto.
  - exists doc. rewrite find_one_app, H. auto.
  - destruct (BSON.eqb j i) eqn:E.
    + apply oid_eqb_eq in E. subst j.
      rewrite find_one_updated, H.
      eexists. split; [reflexivity|]. split; [repeat split|].
      right. exists clk, order_id, body. auto.
    + apply oid_eqb_neq in E.
      rewrite find_one_update_other by congruence.
      exists doc. auto.
Qed.

(** An order that appears was built by [create_order]. *)
Lemma effect_new db r db' i doc' :
  effect db r db' ->
  find_one i (orders_of db) = None ->
  find_one i (orders_of db') = Some (i, doc') ->
  exists g body p,
    r = CreateOrder g body /\ i = generated_id g /\
    doc' = mkDocument (new_order p body) (created_now g) (updated_now g).
Proof.
  intros [db0 r0 | d e c E | d g body p I | d clk order_id body j doc0 P F] N H;
    cbn [orders_of order] in *; try congruence.
  - rewrite find_one_app, N in H. cbn [find_one] in H.
    destruct (BSON.eqb (generated_id g) i) eqn:E; [| discriminate].
    apply oid_eqb_eq in E. injection H as <-.
    exists g, body, p. auto.
  - destruct (BSON.eqb j i) eqn:E.
    + apply oid_eqb_eq in E. subst j. congruence.
    + apply oid_eqb_neq in E.
      rewrite find_one_update_other in H by congruence. congruence.
Qed.

End Effects.

(** ** Runs of requests *)

Section Runs.
Import BSONFacts CollectionFacts.
Local Open Scope list_scope.

Lemma same_but_payment_refl a : same_but_payment a a.
Proof. repeat split. Qed.

Lemma same_but_payment_trans a b c :
  same_but_payment a b -> same_but_payment b c -> same_but_payment a c.
Proof.
  unfold same_but_payment. intros H1 H2.
  repeat match goal with H : _ /\ _ |- _ => destruct H end.
  repeat split; congruence.
Qed.

Lemma run_cons db r rs : run db (r :: rs) = run (handle db r) rs.
Proof. reflexivity. Qed.

Lemma run_app db rs rs' : run db (rs ++ rs') = run (run db rs) rs'.
Proof. apply fold_left_app. Qed.

(** No run deletes an order, and what an order was created with, apart
    from what [pay_order] writes, stays. *)
Lemma run_frame rs : forall db i doc,
  find_one i (orders_of db) = Some (i, doc) ->
  exists doc',
    find_one i (orders_of (run db rs)) = Some (i, doc') /\
    same_but_payment doc doc'.
Proof.
  induction rs as [|r rs IH]; intros db i doc H.
  - exists doc. split; [exact H | apply same_but_payment_refl].
  - rewrite run_cons.
    destruct (effect_frame db r _ i doc (handle_effect db r) H)
      as (doc1 & H1 & S1 & _).
    destruct (IH _ i doc1 H1) as (doc' & H' & S').
    exists doc'. split; [exact H' | eapply same_but_payment_trans; eauto].
Qed.


Lemma Forall_update_one {A} (P : BSON.ObjectId * Document A -> Prop) i f c :
  (forall k d, P (k, d) -> P (k, f d)) ->
  Forall P c -> Forall P (update_one i f c).
Proof.
  intros Hf. induction 1 as [|[k d] c Hx Hc IH]; cbn [update_one].
  - constructor.
  - destruct (BSON.eqb k i); constructor; auto.
Qed.

(** Every effect keeps the statuses within "created" and "paid". *)
Lemma effect_status db r db' :
  effect db r db' ->
  Forall created_or_paid (orders_of db) ->
  Forall created_or_paid (orders_of db').
Proof.
  intros [db0 r0 | d e c E | d g body p I | d clk order_id body i doc P F] H;
    cbn [orders_of order] in *; auto.
  - apply Forall_app. split; [exact H|].
    constructor; [| constructor]. left. reflexivity.
  - apply Forall_update_one; [| exact H].
    intros k d0 _. right. reflexivity.
Qed.

Lemma run_status rs : forall db,
  Forall created_or_paid (orders_of db) ->
  Forall created_or_paid (orders_of (run db rs)).
Proof.
  induction rs as [|r rs IH]; intros db H; [exact H|].
  rewrite run_cons. apply IH.
  apply (effect_status db r _ (handle_effect db r) H).
Qed.

End Runs.

(* ================================================================= *)
(** * The claims *)

Import BSONFacts CollectionFacts.

(** ** Order creation *)

(** C1. When [plan_id] resolves to a stored plan, [create_order] returns and
    persists an order whose [plan_name] is the plan's name, whose
    [plan_price] and [total] are the plan's price, and whose [status] is
    "created". Afterwards the snapshot is not read from the plan again:
    whatever the plan collection is replaced with and whatever requests
    follow, the stored order keeps these three values. *)
Theorem create_order_snapshot
        (d : Database) (g : Generated) (body : CreateOrderBody.t)
        (i : BSON.ObjectId) (p : Document Plan.t) :
  BSON.parse (CreateOrderBody.plan_id body) = Some i ->
  find_one i (plan d) = Some (i, p) ->
  ~ In (generated_id g) (ids (order d)) ->
  exists out d',
    create_order g body (Some d) = (Return out, Some d') /\
    Order.plan_name (data (fields out)) = Plan.name (data p) /\
    Order.plan_price (data (fields out)) = Plan.price (data p) /\
    Order.total (data (fields out)) = Plan.price (data p) /\
    Order.status (data (fields out)) = "created" /\
    id out = BSON.str (generated_id g) /\
    find_one (generated_id g) (order d') = Some (generated_id g, fields out) /\
    plan d' = plan d /\
    forall (plans' : Collection Plan.t) (rs : list Request),
    exists doc,
      find_one (generated_id g)
               (orders_of (run (Some {| plan := plans'; order := order d' |}) rs))
      = Some (generated_id g, doc) /\
      Order.plan_name (data doc) = Plan.name (data p) /\
      Order.plan_price (data doc) = Plan.price (data p) /\
      Order.total (data doc) = Plan.price (data p).
Proof.
  intros P F I.
  eexists. eexists. split; [apply (create_order_found d g body i (i, p) P F I)|].
  cbn [fields data id order plan new_order Order.plan_name Order.plan_price
       Order.total Order.status snd].
  repeat (split; [reflexivity|]).
  split; [apply find_one_inserted; exact I|].
  split; [reflexivity|].
  intros plans' rs.
  destruct (run_frame rs (Some {| plan := plans';
                                  order := (order d ++ [(generated_id g,
                                    mkDocument (new_order (i, p) body)
                                      (created_now g) (updated_now g))])%list |})
                      (generated_id g) _ (find_one_inserted _ _ _ I))
    as (doc & H & S).
  exists doc. split; [exact H|].
  destruct S as (_ & Sn & Sp & _ & _ & _ & _ & _ & _ & _ & _ & _ & _ & _ & St & _).
  cbn [data new_order Order.plan_name Order.plan_price Order.total snd] in Sn, Sp, St.
  auto.
Qed.

(** Jane Doe's order for the Essential Will on the seeded store: the total
    is 79.0 and the status "created". *)
Lemma create_order_snapshot_witness :
  exists out d',
    create_order Sample.jane_generated Sample.jane (Some Sample.seeded)
    = (Return out, Some d') /\
    Order.plan_name (data (fields out)) = "Essential Will" /\
    Order.plan_price (data (fields out)) = 79%float /\
    Order.total (data (fields out)) = 79%float /\
    Order.status (data (fields out)) = "created" /\
    id out = Sample.jane_id /\
    find_one (Sample.oid_ending x0a) (order d')
    = Some (Sample.oid_ending x0a, fields out) /\
    plan d' = plan Sample.seeded /\
    forall (plans' : Collection Plan.t) (rs : list Request),
    exists doc,
      find_one (Sample.oid_ending x0a)
               (orders_of (run (Some {| plan := plans'; order := order d' |}) rs))
      = Some (Sample.oid_ending x0a, doc) /\
      Order.plan_name (data doc) = "Essential Will" /\
      Order.plan_price (data doc) = 79%float /\
      Order.total (data doc) = 79%float.
Proof.
  apply (create_order_snapshot Sample.seeded Sample.jane_generated Sample.jane
           (Sample.oid_ending x01) Sample.essential).
  - reflexivity.
  - reflexivity.
  - simpl. tauto.
Defined.

(** ** Seeding *)

(** C2. What the code does where the claim has [list_plans] seed: on every
    configured store, the one without plans included, [list_plans] raises
    [NotImplementedError] at the truth test [if db] of line 39, before any
    plan is read or inserted. The client gets a 500, and after any number
    of calls the store is as it was: no default plan is ever inserted and
    no plan is returned. *)
Theorem list_plans_never_seeds (d : Database) (e : SeedEnv) :
  list_plans e (Some d) = (Raise NotImplementedError, Some d) /\
  status_code_of (fst (list_plans e (Some d))) = 500%Z /\
  forall es : list SeedEnv,
    run (Some d) (map ListPlans (e :: es)) = Some d /\
    plans_of (run (Some d) (map ListPlans (e :: es))) = plan d.
Proof.
  split; [reflexivity|]. split; [reflexivity|].
  intro es.
  assert (run (Some d) (map ListPlans (e :: es)) = Some d) as R.
  { generalize (e :: es). intro l. induction l as [|e' l IH]; [reflexivity|].
    cbn [map]. rewrite run_cons. cbn [handle].
    rewrite list_plans_raises. exact IH. }
  rewrite R. split; reflexivity.
Qed.

(** The failing input of C2: three calls on the store without plans. *)
Lemma list_plans_never_seeds_empty :
  list_plans Sample.seed (Some Sample.empty)
  = (Raise NotImplementedError, Some Sample.empty) /\
  List.length (plans_of (run (Some Sample.empty)
                             (map ListPlans [Sample.seed; Sample.seed; Sample.seed])))
  = 0.
Proof. split; reflexivity. Qed.

(** ** Payment *)

(** C3. For an order id that resolves to a stored order, the payment
    reference [pay_order] stores is "PMT-", the last six characters of the
    order id in upper case, "-", and the reading of the clock as an integer
    in decimal; the middle part has exactly six characters and, the reading
    not being negative, the last part is a non-empty run of digits. *)
Theorem pay_order_reference
        (d : Database) (clk : PayClock) (order_id : string)
        (body : PaymentBody.t) (i : BSON.ObjectId) (doc : Document Order.t) :
  BSON.parse order_id = Some i ->
  find_one i (order d) = Some (i, doc) ->
  exists out d',
    pay_order clk order_id body (Some d) = (Return out, Some d') /\
    find_one i (order d') = Some (i, fields out) /\
    Order.payment_reference (data (fields out))
    = Some ("PMT-" ++ Str.upper (Str.suffix 6 order_id)
              ++ "-" ++ Str.of_int (timestamp clk)) /\
    String.length (Str.upper (Str.suffix 6 order_id)) = 6 /\
    ((0 <= timestamp clk)%Z ->
     Str.all Str.is_digit (Str.of_int (timestamp clk)) = true /\
     Str.of_int (timestamp clk) <> "").
Proof.
  intros P F.
  eexists. eexists.
  split; [apply (pay_order_found d clk order_id body i i doc P F)|].
  cbn [fields order data set_paid Order.payment_reference].
  split; [rewrite find_one_updated, F; reflexivity|].
  split; [reflexivity|].
  split.
  - rewrite StrFacts.length_upper. apply StrFacts.length_suffix.
    rewrite (parse_length _ _ P). lia.
  - apply StrFacts.digits_of_int.
Qed.

(** Jane's order paid at 1700000200: the reference is
    "PMT-293A0A-1700000200". *)
Lemma pay_order_reference_witness :
  exists out d',
    pay_order Sample.clock1 Sample.jane_id PaymentBody.default (Some Sample.ordered)
    = (Return out, Some d') /\
    Order.payment_reference (data (fields out)) = Some "PMT-293A0A-1700000200".
Proof.
  destruct (pay_order_reference Sample.ordered Sample.clock1 Sample.jane_id
              PaymentBody.default (Sample.oid_ending x0a) Sample.jane_order)
    as (out & d' & H & _ & R & _).
  - reflexivity.
  - reflexivity.
  - exists out, d'. split; [exact H | exact R].
Defined.

(** C4. On a stored order whose status is "created", [pay_order] returns
    (a 200): the status becomes "paid", [payment_reference] is set to a
    non-empty string, [updated_at] is set to the reading of the clock, and
    the record returned is the one now stored, under its string id. *)
Theorem pay_order_created
        (d : Database) (clk : PayClock) (order_id : string)
        (body : PaymentBody.t) (i : BSON.ObjectId) (doc : Document Order.t) :
  BSON.parse order_id = Some i ->
  find_one i (order d) = Some (i, doc) ->
  Order.status (data doc) = "created" ->
  exists out d' ref,
    pay_order clk order_id body (Some d) = (Return out, Some d') /\
    status_code_of (fst (pay_order clk order_id body (Some d))) = 200%Z /\
    Order.status (data (fields out)) = "paid" /\
    Order.payment_reference (data (fields out)) = Some ref /\
    ref <> "" /\
    updated_at (fields out) = utcnow clk /\
    id out = BSON.str i /\
    find_one i (order d') = Some (i, fields out).
Proof.
  intros P F _.
  eexists. eexists. eexists.
  rewrite (pay_order_found d clk order_id body i i doc P F).
  split; [reflexivity|].
  cbn [fst status_code_of fields data set_paid Order.status
       Order.payment_reference updated_at id order].
  repeat (split; [reflexivity|]).
  split; [discriminate|].
  repeat (split; [reflexivity|]).
  rewrite find_one_updated, F. reflexivity.
Qed.

(** Jane's order, stored with status "created", is paid. *)
Lemma pay_order_created_witness :
  exists out d' ref,
    pay_order Sample.clock1 Sample.jane_id PaymentBody.default (Some Sample.ordered)
    = (Return out, Some d') /\
    status_code_of (fst (pay_order Sample.clock1 Sample.jane_id
                                   PaymentBody.default (Some Sample.ordered)))
    = 200%Z /\
    Order.status (data (fields out)) = "paid" /\
    Order.payment_reference (data (fields out)) = Some ref /\
    ref <> "" /\
    updated_at (fields out) = 1700000201%Z /\
    id out = Sample.jane_id /\
    find_one (Sample.oid_ending x0a) (order d')
    = Some (Sample.oid_ending x0a, fields out).
Proof.
  apply (pay_order_created Sample.ordered Sample.clock1 Sample.jane_id
           PaymentBody.default (Sample.oid_ending x0a) Sample.jane_order).
  - reflexivity.
  - reflexivity.
  - reflexivity.
Defined.

(** C5. [pay_order] does not look at the status: on any stored order a
    first call returns and leaves the order "paid", and a second call
    returns as well and replaces the stored [payment_reference] and
    [updated_at] by those of the second call. *)
Theorem pay_order_twice
        (d : Database) (clk1 clk2 : PayClock) (order_id : string)
        (body1 body2 : PaymentBody.t) (i : BSON.ObjectId)
        (doc : Document Order.t) :
  BSON.parse order_id = Some i ->
  find_one i (order d) = Some (i, doc) ->
  exists out1 d1 out2 d2,
    pay_order clk1 order_id body1 (Some d) = (Return out1, Some d1) /\
    Order.status (data (fields out1)) = "paid" /\
    find_one i (order d1) = Some (i, fields out1) /\
    pay_order clk2 order_id body2 (Some d1) = (Return out2, Some d2) /\
    find_one i (order d2) = Some (i, fields out2) /\
    Order.status (data (fields out2)) = "paid" /\
    Order.payment_reference (data (fields out2))
    = Some (payment_ref order_id (timestamp clk2)) /\
    updated_at (fields out2) = utcnow clk2.
Proof.
  intros P F.
  pose (paid1 := set_paid (payment_ref order_id (timestamp clk1)) (utcnow clk1)).
  assert (find_one i (update_one i paid1 (order d)) = Some (i, paid1 doc)) as F1
      by (rewrite find_one_updated, F; reflexivity).
  eexists. eexists. eexists. eexists.
  split; [apply (pay_order_found d clk1 order_id body1 i i doc P F)|].
  split; [reflexivity|].
  split; [exact F1|].
  split; [apply (pay_order_found
                   {| plan := plan d; order := update_one i paid1 (order d) |}
                   clk2 order_id body2 i i (paid1 doc) P F1)|].
  cbn [fields order].
  split; [rewrite find_one_updated; fold paid1; rewrite F1; reflexivity|].
  repeat split.
Qed.

(** Jane's order paid at 1700000200 and again at 1700000300: the second
    reference and time are the stored ones. *)
Lemma pay_order_twice_witness :
  exists out1 d1 out2 d2,
    pay_order Sample.clock1 Sample.jane_id PaymentBody.default (Some Sample.ordered)
    = (Return out1, Some d1) /\
    Order.payment_reference (data (fields out1)) = Some "PMT-293A0A-1700000200" /\
    pay_order Sample.clock2 Sample.jane_id Sample.token_body (Some d1)
    = (Return out2, Some d2) /\
    find_one (Sample.oid_ending x0a) (order d2)
    = Some (Sample.oid_ending x0a, fields out2) /\
    Order.payment_reference (data (fields out2)) = Some "PMT-293A0A-1700000300" /\
    updated_at (fields out2) = 1700000301%Z.
Proof.
  destruct (pay_order_twice Sample.ordered Sample.clock1 Sample.clock2
              Sample.jane_id PaymentBody.default Sample.token_body
              (Sample.oid_ending x0a) Sample.jane_order)
    as (out1 & d1 & out2 & d2 & H1 & _ & _ & H2 & F2 & _ & R2 & U2).
  - reflexivity.
  - reflexivity.
  - exists out1, d1, out2, d2.
    assert (Order.payment_reference (data (fields out1))
            = Some "PMT-293A0A-1700000200") as R1.
    { assert (fst (pay_order Sample.clock1 Sample.jane_id PaymentBody.default
                             (Some Sample.ordered)) = Return out1) as E
          by (rewrite H1; reflexivity).
      vm_compute in E. injection E as <-. reflexivity. }
    repeat split; assumption.
Defined.

(** ** Lookups that fail *)







(** ** What payment leaves alone *)

(** No run of requests removes an order. *)
Lemma run_keeps_orders (db : option Database) (rs : list Request) (j : BSON.ObjectId) :
  In j (ids (orders_of db)) -> In j (ids (orders_of (run db rs))).
Proof.
  intro H. apply find_one_Some_iff in H as [doc H].
  destruct (run_frame rs db j doc H) as (doc' & H' & _).
  apply find_one_Some_iff. exists doc'. exact H'.
Qed.

(** C8. On a stored order [pay_order] writes [status], [payment_reference]
    and [updated_at] and nothing else: the other fields of the order are as
    before, every other order is as before, the plans are as before, and
    the ids in the order collection are the same. No run of requests removes
    an order from the store. *)
Theorem pay_order_frame
        (d : Database) (clk : PayClock) (order_id : string)
        (body : PaymentBody.t) (i : BSON.ObjectId) (doc : Document Order.t) :
  BSON.parse order_id = Some i ->
  find_one i (order d) = Some (i, doc) ->
  exists out d',
    pay_order clk order_id body (Some d) = (Return out, Some d') /\
    find_one i (order d') = Some (i, fields out) /\
    same_but_payment doc (fields out) /\
    (forall j, j <> i -> find_one j (order d') = find_one j (order d)) /\
    ids (order d') = ids (order d) /\
    plan d' = plan d /\
    forall (db : option Database) (rs : list Request) (j : BSON.ObjectId),
      In j (ids (orders_of db)) -> In j (ids (orders_of (run db rs))).
Proof.
  intros P F.
  eexists. eexists.
  split; [apply (pay_order_found d clk order_id body i i doc P F)|].
  cbn [fields order plan].
  split; [rewrite find_one_updated, F; reflexivity|].
  split; [repeat split|].
  split; [intros j N; apply find_one_update_other; exact N|].
  split; [apply ids_update_one|].
  split; [reflexivity|].
  apply run_keeps_orders.
Qed.

(** Paying Jane's order leaves her name, her address and the total as they
    were. *)
Lemma pay_order_frame_witness :
  exists out d',
    pay_order Sample.clock1 Sample.jane_id Sample.token_body (Some Sample.ordered)
    = (Return out, Some d') /\
    same_but_payment Sample.jane_order (fields out) /\
    ids (order d') = [Sample.oid_ending x0a] /\
    plan d' = stamped Sample.seed.
Proof.
  destruct (pay_order_frame Sample.ordered Sample.clock1 Sample.jane_id
              Sample.token_body (Sample.oid_ending x0a) Sample.jane_order)
    as (out & d' & H & _ & S & _ & I & Pl & _).
  - reflexivity.
  - reflexivity.
  - exists out, d'.
    split; [exact H|]. split; [exact S|]. split; [exact I | exact Pl].
Defined.

(** ** The status of an order *)

(** C9. In every store reached from one without orders, every stored order
    has status "created" or "paid". From such a store one more request
    leaves the status of a stored order as it is or, when the request is a
    [pay_order], takes it from "created" to "paid"; an order that was not
    there before comes from [create_order] and has status "created". *)
Theorem status_created_or_paid (db : option Database) (rs : list Request) :
  orders_of db = [] ->
  Forall created_or_paid (orders_of (run db rs)) /\
  forall (r : Request) (i : BSON.ObjectId) (doc' : Document Order.t),
    find_one i (orders_of (handle (run db rs) r)) = Some (i, doc') ->
    match find_one i (orders_of (run db rs)) with
    | Some (_, doc) =>
        Order.status (data doc') = Order.status (data doc) \/
        (Order.status (data doc) = "created" /\
         Order.status (data doc') = "paid" /\
         exists clk order_id body, r = PayOrder clk order_id body)
    | None =>
        Order.status (data doc') = "created" /\
        exists g body, r = CreateOrder g body
    end.
Proof.
  intro E.
  assert (Forall created_or_paid (orders_of (run db rs))) as Inv
      by (apply run_status; rewrite E; constructor).
  split; [exact Inv|].
  intros r i doc' H.
  pose proof (handle_effect (run db rs) r) as Eff.
  destruct (find_one i (orders_of (run db rs))) as [[k doc]|] eqn:F.
  - apply find_one_key in F as K. subst k.
    destruct (effect_frame _ r _ i doc Eff F) as (doc1 & H1 & _ & C).
    rewrite H in H1. injection H1 as <-.
    destruct C as [-> | (clk & order_id & body & -> & _ & ->)]; [left; reflexivity|].
    apply find_one_In in F.
    pose proof (proj1 (Forall_forall _ _) Inv _ F) as [S|S]; cbn [snd] in S.
    + right. split; [exact S|]. split; [reflexivity|]. eauto.
    + left. rewrite S. reflexivity.
  - destruct (effect_new _ r _ i doc' Eff F H) as (g & body & p & -> & _ & ->).
    split; [reflexivity | eauto].
Qed.

(** On the seeded store, after a listing, Jane's order and its payment,
    the stored statuses are within the two, and the payment took the order
    from "created" to "paid". *)
Lemma status_created_or_paid_witness :
  Forall created_or_paid
         (orders_of (run (Some Sample.seeded)
                         [ListPlans Sample.seed;
                          CreateOrder Sample.jane_generated Sample.jane;
                          PayOrder Sample.clock1 Sample.jane_id PaymentBody.default])) /\
  map (fun kd => Order.status (data (snd kd)))
      (orders_of (run (Some Sample.seeded)
                      [ListPlans Sample.seed;
                       CreateOrder Sample.jane_generated Sample.jane]))
  = ["created"] /\
  map (fun kd => Order.status (data (snd kd)))
      (orders_of (run (Some Sample.seeded)
                      [ListPlans Sample.seed;
                       CreateOrder Sample.jane_generated Sample.jane;
                       PayOrder Sample.clock1 Sample.jane_id PaymentBody.default]))
  = ["paid"].
Proof.
  split; [| split; reflexivity].
  apply (proj1 (status_created_or_paid
                  (Some Sample.seeded)
                  [ListPlans Sample.seed;
                   CreateOrder Sample.jane_generated Sample.jane;
                   PayOrder Sample.clock1 Sample.jane_id PaymentBody.default]
                  eq_refl)).
Defined.

(** ** The payment body *)

(** C10. [pay_order] does not read its body: with the same readings of the
    clock, any two bodies give the same response and the same store; with
    different readings the responses on a stored order still agree on the
    id, on the status and on every field but [payment_reference] and
    [updated_at]. *)
Theorem pay_order_ignores_body
        (order_id : string) (body1 body2 : PaymentBody.t) :
  (forall (clk : PayClock) (db : option Database),
      pay_order clk order_id body1 db = pay_order clk order_id body2 db) /\
  (forall (clk1 clk2 : PayClock) (d : Database) (i : BSON.ObjectId)
          (doc : Document Order.t),
      BSON.parse order_id = Some i ->
      find_one i (order d) = Some (i, doc) ->
      exists out1 out2 d1 d2,
        pay_order clk1 order_id body1 (Some d) = (Return out1, Some d1) /\
        pay_order clk2 order_id body2 (Some d) = (Return out2, Some d2) /\
        id out1 = id out2 /\
        Order.status (data (fields out1)) = Order.status (data (fields out2)) /\
        same_but_payment (fields out1) (fields out2) /\
        ids (order d1) = ids (order d2) /\
        plan d1 = plan d2).
Proof.
  split; [reflexivity|].
  intros clk1 clk2 d i doc P F.
  eexists. eexists. eexists. eexists.
  split; [apply (pay_order_found d clk1 order_id body1 i i doc P F)|].
  split; [apply (pay_order_found d clk2 order_id body2 i i doc P F)|].
  cbn [id fields order plan].
  split; [reflexivity|]. split; [reflexivity|]. split; [repeat split|].
  split; [rewrite !ids_update_one; reflexivity | reflexivity].
Qed.

(** Jane's order paid by card without a token and by transfer with one. *)
Lemma pay_order_ignores_body_witness :
  pay_order Sample.clock1 Sample.jane_id PaymentBody.default (Some Sample.ordered)
  = pay_order Sample.clock1 Sample.jane_id Sample.token_body (Some Sample.ordered) /\
  exists out1 out2 d1 d2,
    pay_order Sample.clock1 Sample.jane_id PaymentBody.default (Some Sample.ordered)
    = (Return out1, Some d1) /\
    pay_order Sample.clock2 Sample.jane_id Sample.token_body (Some Sample.ordered)
    = (Return out2, Some d2) /\
    same_but_payment (fields out1) (fields out2).
Proof.
  destruct (pay_order_ignores_body Sample.jane_id PaymentBody.default
              Sample.token_body) as [Same Diff].
  split; [apply Same|].
  destruct (Diff Sample.clock1 Sample.clock2 Sample.ordered
                 (Sample.oid_ending x0a) Sample.jane_order)
    as (out1 & out2 & d1 & d2 & H1 & H2 & _ & _ & S & _).
  - reflexivity.
  - reflexivity.
  - exists out1, out2, d1, d2.
    split; [exact H1|]. split; [exact H2 | exact S].
Defined.

(* ================================================================= *)
(** * Further properties of the routes *)


(** ** Creating and reading back *)

(** X1. The id [create_order] returns is the string form of the new [_id]:
    [ObjectId] accepts it, and [get_order] on it returns the very record
    [create_order] returned and leaves the store as it is. *)
Theorem create_then_get
        (d : Database) (g : Generated) (body : CreateOrderBody.t)
        (i : BSON.ObjectId) (p : Document Plan.t) :
  BSON.parse (CreateOrderBody.plan_id body) = Some i ->
  find_one i (plan d) = Some (i, p) ->
  ~ In (generated_id g) (ids (order d)) ->
  exists out d',
    create_order g body (Some d) = (Return out, Some d') /\
    String.length (id out) = 24 /\
    BSON.parse (id out) = Some (generated_id g) /\
    get_order (id out) (Some d') = (Return out, Some d').
Proof.
  intros P F I.
  eexists. eexists.
  split; [apply (create_order_found d g body i (i, p) P F I)|].
  cbn [id].
  split; [apply length_str|]. split; [apply parse_str|].
  eapply get_order_found; [apply parse_str|].
  cbn [order]. apply find_one_inserted. exact I.
Qed.

(** Jane's order is read back under the id it was created with. *)
Lemma create_then_get_witness :
  exists out d',
    create_order Sample.jane_generated Sample.jane (Some Sample.seeded)
    = (Return out, Some d') /\
    id out = Sample.jane_id /\
    get_order Sample.jane_id (Some d') = (Return out, Some d').
Proof.
  destruct (create_then_get Sample.seeded Sample.jane_generated Sample.jane
              (Sample.oid_ending x01) Sample.essential)
    as (out & d' & H & _ & _ & G).
  - reflexivity.
  - reflexivity.
  - simpl. tauto.
  - exists out, d'.
    assert (id out = Sample.jane_id) as E.
    { assert (fst (create_order Sample.jane_generated Sample.jane
                                (Some Sample.seeded)) = Return out) as R
          by (rewrite H; reflexivity).
      vm_compute in R. injection R as <-. reflexivity. }
    split; [exact H|]. split; [exact E|]. rewrite <- E. exact G.
Defined.

(** X2. The order [create_order] returns carries the customer and address
    fields of the request body unchanged, no payment reference, the two
    readings of the clock, and as [plan_id] the printed form of the plan's
    [_id], whatever the case of the digits in the request: it reads back to
    the plan. *)
Theorem create_order_copies_body
        (d : Database) (g : Generated) (body : CreateOrderBody.t)
        (i : BSON.ObjectId) (p : Document Plan.t) :
  BSON.parse (CreateOrderBody.plan_id body) = Some i ->
  find_one i (plan d) = Some (i, p) ->
  ~ In (generated_id g) (ids (order d)) ->
  exists out d',
    create_order g body (Some d) = (Return out, Some d') /\
    customer_of body (data (fields out)) /\
    Order.payment_reference (data (fields out)) = None /\
    created_at (fields out) = created_now g /\
    updated_at (fields out) = updated_now g /\
    Order.plan_id (data (fields out)) = BSON.str i /\
    Str.upper (Order.plan_id (data (fields out)))
    = Str.upper (CreateOrderBody.plan_id body) /\
    BSON.parse (Order.plan_id (data (fields out))) = Some i /\
    find_one i (plan d') = Some (i, p).
Proof.
  intros P F I.
  eexists. eexists.
  split; [apply (create_order_found d g body i (i, p) P F I)|].
  cbn [fields data new_order created_at updated_at plan fst
       Order.payment_reference Order.plan_id].
  split; [repeat split|].
  repeat (split; [reflexivity|]).
  split; [symmetry; apply HexFacts.parse_upper; exact P|].
  split; [apply parse_str | exact F].
Qed.

(** Jane's order with the plan id spelt in upper case. *)
Lemma create_order_copies_body_witness :
  let shouted :=
    {| CreateOrderBody.plan_id := "65A1B2C3D4E5F60718293A01";
       CreateOrderBody.first_name := "Jane";
       CreateOrderBody.last_name := "Doe";
       CreateOrderBody.email := "jane@example.com";
       CreateOrderBody.phone := Some "+44 113 496 0000";
       CreateOrderBody.address_line1 := "1 High Street";
       CreateOrderBody.address_line2 := None;
       CreateOrderBody.city := "Leeds";
       CreateOrderBody.state := None;
       CreateOrderBody.postal_code := "LS1 1AA";
       CreateOrderBody.country := "GB";
       CreateOrderBody.notes := Some "Call before noon" |} in
  exists out d',
    create_order Sample.jane_generated shouted (Some Sample.seeded)
    = (Return out, Some d') /\
    customer_of shouted (data (fields out)) /\
    Order.plan_id (data (fields out)) = "65a1b2c3d4e5f60718293a01".
Proof.
  intro shouted.
  destruct (create_order_copies_body Sample.seeded Sample.jane_generated shouted
              (Sample.oid_ending x01) Sample.essential)
    as (out & d' & H & C & _ & _ & _ & Pid & _).
  - reflexivity.
  - reflexivity.
  - simpl. tauto.
  - exists out, d'. split; [exact H|]. split; [exact C | exact Pid].
Defined.

(** X3. A successful [create_order] appends one order and touches nothing
    else: every order stored before is found as before, the new id comes
    last, and the plans are as they were. *)
Theorem create_order_frame
        (d : Database) (g : Generated) (body : CreateOrderBody.t)
        (i : BSON.ObjectId) (p : Document Plan.t) :
  BSON.parse (CreateOrderBody.plan_id body) = Some i ->
  find_one i (plan d) = Some (i, p) ->
  ~ In (generated_id g) (ids (order d)) ->
  exists out d',
    create_order g body (Some d) = (Return out, Some d') /\
    (forall j, j <> generated_id g ->
               find_one j (order d') = find_one j (order d)) /\
    ids (order d') = (ids (order d) ++ [generated_id g])%list /\
    List.length (order d') = S (List.length (order d)) /\
    plan d' = plan d.
Proof.
  intros P F I.
  eexists. eexists.
  split; [apply (create_order_found d g body i (i, p) P F I)|].
  cbn [order plan].
  split; [intros j N; apply find_one_insert_other; exact N|].
  split; [apply ids_app|].
  split; [rewrite length_app; cbn [List.length]; lia | reflexivity].
Qed.

(** A second order beside Jane's. *)
Lemma create_order_frame_witness :
  exists out d',
    create_order Sample.second_generated Sample.jane (Some Sample.ordered)
    = (Return out, Some d') /\
    find_one (Sample.oid_ending x0a) (order d')
    = Some (Sample.oid_ending x0a, Sample.jane_order) /\
    ids (order d') = [Sample.oid_ending x0a; Sample.oid_ending x0b].
Proof.
  destruct (create_order_frame Sample.ordered Sample.second_generated Sample.jane
              (Sample.oid_ending x01) Sample.essential)
    as (out & d' & H & Fr & Ids & _).
  - reflexivity.
  - reflexivity.
  - simpl. intros [E|[]]. apply (f_equal BSON.binary) in E. discriminate E.
  - exists out, d'. split; [exact H|]. split; [| exact Ids].
    rewrite Fr; [reflexivity|].
    intro E. apply (f_equal BSON.binary) in E. discriminate E.
Defined.

(** X4. [create_order] detects no duplicate: the same body sent twice
    gives two stored orders with the same fields under two ids. *)
Theorem create_order_twice
        (d : Database) (g1 g2 : Generated) (body : CreateOrderBody.t)
        (i : BSON.ObjectId) (p : Document Plan.t) :
  BSON.parse (CreateOrderBody.plan_id body) = Some i ->
  find_one i (plan d) = Some (i, p) ->
  ~ In (generated_id g1) (ids (order d)) ->
  ~ In (generated_id g2) (ids (order d)) ->
  generated_id g1 <> generated_id g2 ->
  exists out1 d1 out2 d2,
    create_order g1 body (Some d) = (Return out1, Some d1) /\
    create_order g2 body (Some d1) = (Return out2, Some d2) /\
    data (fields out1) = data (fields out2) /\
    id out1 <> id out2 /\
    find_one (generated_id g1) (order d2) = Some (generated_id g1, fields out1) /\
    find_one (generated_id g2) (order d2) = Some (generated_id g2, fields out2) /\
    List.length (order d2) = S (S (List.length (order d))).
Proof.
  intros P F I1 I2 N.
  pose (doc1 := mkDocument (new_order (i, p) body) (created_now g1) (updated_now g1)).
  pose (d1 := {| plan := plan d;
                 order := (order d ++ [(generated_id g1, doc1)])%list |}).
  assert (~ In (generated_id g2) (ids (order d1))) as I2'.
  { cbn [d1 order]. rewrite ids_app. intro H. apply in_app_or in H.
    destruct H as [H|[H|[]]]; [exact (I2 H) | exact (N H)]. }
  eexists. exists d1. eexists. eexists.
  split; [apply (create_order_found d g1 body i (i, p) P F I1)|].
  split; [apply (create_order_found d1 g2 body i (i, p) P F I2')|].
  cbn [fields data id order d1].
  split; [reflexivity|].
  split.
  - intro E. apply N.
    apply (f_equal BSON.parse) in E. rewrite !parse_str in E. congruence.
  - split.
    + rewrite find_one_insert_other by exact N.
      apply find_one_inserted. exact I1.
    + split; [apply find_one_inserted; exact I2'|].
      rewrite !length_app. cbn [List.length]. lia.
Qed.

(** Jane sends her order twice. *)
Lemma create_order_twice_witness :
  exists out1 d1 out2 d2,
    create_order Sample.jane_generated Sample.jane (Some Sample.seeded)
    = (Return out1, Some d1) /\
    create_order Sample.second_generated Sample.jane (Some d1)
    = (Return out2, Some d2) /\
    data (fields out1) = data (fields out2) /\
    id out1 <> id out2 /\
    List.length (order d2) = 2.
Proof.
  destruct (create_order_twice Sample.seeded Sample.jane_generated
              Sample.second_generated Sample.jane
              (Sample.oid_ending x01) Sample.essential)
    as (out1 & d1 & out2 & d2 & H1 & H2 & E & N & _ & _ & L).
  - reflexivity.
  - reflexivity.
  - simpl. tauto.
  - simpl. tauto.
  - intro E. apply (f_equal BSON.binary) in E. discriminate E.
  - exists out1, d1, out2, d2.
    split; [exact H1|]. split; [exact H2|]. split; [exact E|].
    split; [exact N | exact L].
Defined.

(** ** Payment: failures, read-back and spellings *)



(** X6. Without a configured store the four routes answer 500 "Database not
    configured" before they look at the id, so also for an id that is no
    object id; and no run of requests configures the store. *)
Theorem unconfigured_answers_500 (rs : list Request) :
  (forall e, status_code_of (fst (list_plans e None)) = 500%Z) /\
  (forall g body,
      create_order g body None
      = (Raise (HTTPException 500 "Database not configured"), None)) /\
  (forall order_id,
      get_order order_id None
      = (Raise (HTTPException 500 "Database not configured"), None)) /\
  (forall clk order_id body,
      pay_order clk order_id body None
      = (Raise (HTTPException 500 "Database not configured"), None)) /\
  run None rs = None /\
  (forall d, exists d', run (Some d) rs = Some d').
Proof.
  repeat (split; [reflexivity|]).
  assert (forall db, is_not_None (run db rs) = is_not_None db) as K.
  { induction rs as [|r rs IH]; intro db; [reflexivity|].
    rewrite run_cons, IH.
    destruct (handle_effect db r); reflexivity. }
  split.
  - specialize (K None). destruct (run None rs); [discriminate K | reflexivity].
  - intro d. specialize (K (Some d)).
    destruct (run (Some d) rs) as [d'|]; [exists d'; reflexivity | discriminate K].
Qed.

(** X7. Two strings [ObjectId] reads as the same object id, such as the
    lower-case and the upper-case spelling, are the same request:
    [get_order] gives the same response, and [pay_order] the same response
    and the same store, payment reference included. *)
Theorem routes_ignore_spelling
        (s1 s2 : string) (i : BSON.ObjectId) (db : option Database) :
  BSON.parse s1 = Some i ->
  BSON.parse s2 = Some i ->
  get_order s1 db = get_order s2 db /\
  forall clk body, pay_order clk s1 body db = pay_order clk s2 body db.
Proof.
  intros P1 P2.
  destruct db as [d|]; [| split; reflexivity].
  destruct (find_one i (order d)) as [[k doc]|] eqn:F.
  - split.
    + rewrite (get_order_found d s1 i k doc P1 F).
      rewrite (get_order_found d s2 i k doc P2 F). reflexivity.
    + intros clk body.
      rewrite (pay_order_found d clk s1 body i k doc P1 F).
      rewrite (pay_order_found d clk s2 body i k doc P2 F).
      unfold payment_ref.
      rewrite (HexFacts.upper_suffix_parse s1 i P1).
      rewrite (HexFacts.upper_suffix_parse s2 i P2). reflexivity.
  - split.
    + rewrite (get_order_absent d s1 i P1 F).
      rewrite (get_order_absent d s2 i P2 F). reflexivity.
    + intros clk body.
      rewrite (pay_order_absent d clk s1 body i P1 F).
      rewrite (pay_order_absent d clk s2 body i P2 F). reflexivity.
Qed.

(** Jane's id in lower and in upper case. *)
Lemma routes_ignore_spelling_witness :
  get_order Sample.jane_id (Some Sample.ordered)
  = get_order Sample.jane_id_upper (Some Sample.ordered) /\
  pay_order Sample.clock1 Sample.jane_id PaymentBody.default (Some Sample.ordered)
  = pay_order Sample.clock1 Sample.jane_id_upper PaymentBody.default
              (Some Sample.ordered).
Proof.
  destruct (routes_ignore_spelling Sample.jane_id Sample.jane_id_upper
              (Sample.oid_ending x0a) (Some Sample.ordered)) as [G Pay].
  - reflexivity.
  - reflexivity.
  - split; [exact G | apply Pay].
Defined.

(** X8. The record [pay_order] returns is the one [get_order] returns
    afterwards, under either call's spelling of the id, and reading it
    changes nothing. *)
Theorem pay_then_get
        (d : Database) (clk : PayClock) (order_id : string)
        (body : PaymentBody.t) (i : BSON.ObjectId) (doc : Document Order.t) :
  BSON.parse order_id = Some i ->
  find_one i (order d) = Some (i, doc) ->
  exists out d',
    pay_order clk order_id body (Some d) = (Return out, Some d') /\
    get_order order_id (Some d') = (Return out, Some d') /\
    get_order (id out) (Some d') = (Return out, Some d').
Proof.
  intros P F.
  assert (find_one i (update_one i
            (set_paid (payment_ref order_id (timestamp clk)) (utcnow clk))
            (order d))
          = Some (i, set_paid (payment_ref order_id (timestamp clk))
                              (utcnow clk) doc)) as F'
      by (rewrite find_one_updated, F; reflexivity).
  eexists. eexists.
  split; [apply (pay_order_found d clk order_id body i i doc P F)|].
  cbn [id].
  split.
  - eapply get_order_found; [exact P | exact F'].
  - eapply get_order_found; [apply parse_str | exact F'].
Qed.

(** Jane pays and reads her order. *)
Lemma pay_then_get_witness :
  exists out d',
    pay_order Sample.clock1 Sample.jane_id PaymentBody.default (Some Sample.ordered)
    = (Return out, Some d') /\
    get_order Sample.jane_id (Some d') = (Return out, Some d').
Proof.
  destruct (pay_then_get Sample.ordered Sample.clock1 Sample.jane_id
              PaymentBody.default (Sample.oid_ending x0a) Sample.jane_order)
    as (out & d' & H & G & _).
  - reflexivity.
  - reflexivity.
  - exists out, d'. split; [exact H | exact G].
Defined.

(** ** What a payment reference identifies *)

Lemma append_inj_r (a x y : string) : a ++ x = a ++ y -> x = y.
Proof.
  induction a as [|c a IH]; cbn [append]; intro H; [exact H|].
  injection H as H. exact (IH H).
Qed.

(** [str] on integers is injective. *)
Lemma of_int_inj (z1 z2 : Z) : Str.of_int z1 = Str.of_int z2 -> z1 = z2.
Proof.
  unfold Str.of_int. intro H.
  assert (forall z, NilZero.int_of_string (NilZero.string_of_int (Z.to_int z))
                    = Some (Z.to_int z)) as R.
  { intro z. apply NilZero.isi; destruct z; cbn [Z.to_int]; try discriminate;
      intro E; injection E as E; exact (Unsigned.to_uint_nonnil _ E). }
  apply (f_equal NilZero.int_of_string) in H. rewrite !R in H.
  injection H as H. apply (f_equal Z.of_int) in H.
  rewrite !DecimalZ.of_to in H. exact H.
Qed.

(** X9. For one order id the payment reference tells the clock reading:
    two payments of the same order at different readings store different
    references. *)
Theorem payment_ref_tells_time (order_id : string) (t1 t2 : Z) :
  t1 <> t2 -> payment_ref order_id t1 <> payment_ref order_id t2.
Proof.
  intros N E. apply N. unfold payment_ref in E.
  apply append_inj_r in E. apply append_inj_r in E. apply append_inj_r in E.
  apply of_int_inj. exact E.
Qed.

(** Jane's order paid at the two sample readings. *)
Lemma payment_ref_tells_time_witness :
  payment_ref Sample.jane_id (timestamp Sample.clock1)
  <> payment_ref Sample.jane_id (timestamp Sample.clock2).
Proof.
  apply (payment_ref_tells_time Sample.jane_id 1700000200 1700000300).
  discriminate.
Defined.

(** X10. The payment reference is made of the last three bytes of the
    order's [_id] and the clock reading, so it does not identify the order:
    two different stored orders whose ids end in the same three bytes, paid
    at the same reading, are stored with the same reference. *)
Theorem payment_ref_collides
        (d : Database) (clk : PayClock) (s1 s2 : string)
        (body1 body2 : PaymentBody.t) (i1 i2 : BSON.ObjectId)
        (doc1 doc2 : Document Order.t) :
  BSON.parse s1 = Some i1 ->
  BSON.parse s2 = Some i2 ->
  i1 <> i2 ->
  find_one i1 (order d) = Some (i1, doc1) ->
  find_one i2 (order d) = Some (i2, doc2) ->
  skipn 9 (BSON.binary i1) = skipn 9 (BSON.binary i2) ->
  exists out1 d1 out2 d2 ref,
    pay_order clk s1 body1 (Some d) = (Return out1, Some d1) /\
    pay_order clk s2 body2 (Some d1) = (Return out2, Some d2) /\
    ref = "PMT-" ++ Str.upper (BSON.hexlify (skipn 9 (BSON.binary i1)))
            ++ "-" ++ Str.of_int (timestamp clk) /\
    id out1 <> id out2 /\
    Order.payment_reference (data (fields out1)) = Some ref /\
    Order.payment_reference (data (fields out2)) = Some ref /\
    exists doc1' doc2',
      find_one i1 (order d2) = Some (i1, doc1') /\
      find_one i2 (order d2) = Some (i2, doc2') /\
      Order.payment_reference (data doc1') = Some ref /\
      Order.payment_reference (data doc2') = Some ref.
Proof.
  intros P1 P2 N F1 F2 S.
  pose (paid1 := set_paid (payment_ref s1 (timestamp clk)) (utcnow clk)).
  pose (paid2 := set_paid (payment_ref s2 (timestamp clk)) (utcnow clk)).
  pose (d1 := {| plan := plan d; order := update_one i1 paid1 (order d) |}).
  assert (find_one i2 (order d1) = Some (i2, doc2)) as F2'
      by (cbn [d1 order]; rewrite find_one_update_other by congruence; exact F2).
  assert (payment_ref s1 (timestamp clk)
          = "PMT-" ++ Str.upper (BSON.hexlify (skipn 9 (BSON.binary i1)))
              ++ "-" ++ Str.of_int (timestamp clk)) as R1.
  { unfold payment_ref.
    rewrite (HexFacts.upper_suffix_parse s1 i1 P1), HexFacts.suffix_str.
    reflexivity. }
  assert (payment_ref s2 (timestamp clk) = payment_ref s1 (timestamp clk)) as R2.
  { rewrite R1. unfold payment_ref.
    rewrite (HexFacts.upper_suffix_parse s2 i2 P2), HexFacts.suffix_str, S.
    reflexivity. }
  eexists. exists d1. eexists. eexists. eexists.
  split; [apply (pay_order_found d clk s1 body1 i1 i1 doc1 P1 F1)|].
  split; [apply (pay_order_found d1 clk s2 body2 i2 i2 doc2 P2 F2')|].
  split; [reflexivity|].
  cbn [id fields data set_paid Order.payment_reference order d1].
  split.
  - intro E. apply N.
    apply (f_equal BSON.parse) in E. rewrite !parse_str in E. congruence.
  - split; [rewrite R1; reflexivity|].
    split; [rewrite R2, R1; reflexivity|].
    exists (paid1 doc1), (paid2 doc2).
    split.
    + rewrite find_one_update_other by exact N.
      rewrite find_one_updated, F1. reflexivity.
    + split.
      * rewrite find_one_updated.
        rewrite find_one_update_other by congruence. rewrite F2. reflexivity.
      * cbn [paid1 paid2 data set_paid Order.payment_reference].
        rewrite R2, R1. auto.
Qed.

(** Jane's order and one whose id ends in the same three bytes, paid at
    the same reading. *)
Lemma payment_ref_collides_witness :
  exists out1 d1 out2 d2,
    pay_order Sample.clock1 Sample.jane_id PaymentBody.default
              (Some Sample.two_orders) = (Return out1, Some d1) /\
    pay_order Sample.clock1 Sample.lookalike_id PaymentBody.default (Some d1)
    = (Return out2, Some d2) /\
    id out1 <> id out2 /\
    Order.payment_reference (data (fields out1)) = Some "PMT-293A0A-1700000200" /\
    Order.payment_reference (data (fields out2)) = Some "PMT-293A0A-1700000200".
Proof.
  destruct (payment_ref_collides Sample.two_orders Sample.clock1
              Sample.jane_id Sample.lookalike_id
              PaymentBody.default PaymentBody.default
              (Sample.oid_ending x0a) Sample.lookalike
              Sample.jane_order Sample.jane_order)
    as (out1 & d1 & out2 & d2 & ref & H1 & H2 & -> & N & R1 & R2 & _).
  - reflexivity.
  - reflexivity.
  - intro E. apply (f_equal BSON.binary) in E. discriminate E.
  - reflexivity.
  - reflexivity.
  - reflexivity.
  - exists out1, d1, out2, d2.
    split; [exact H1|]. split; [exact H2|]. split; [exact N|].
    split; [exact R1 | exact R2].
Defined.

(** ** The plan catalog *)

(** X12. Whatever the store and whatever ids the driver generates,
    [list_plans] leaves the order collection as it is, and a plan that is
    stored is found unchanged afterwards. *)
Theorem list_plans_frame (e : SeedEnv) (db : option Database) :
  orders_of (snd (list_plans e db)) = orders_of db /\
  forall i p,
    find_one i (plans_of db) = Some p ->
    find_one i (plans_of (snd (list_plans e db))) = Some p.
Proof.
  pose proof (list_plans_effect e db) as Eff.
  remember (ListPlans e) as r eqn:R.
  destruct Eff as [db0 r0 | d e0 c E | d g body p I | d clk order_id body i doc P F];
    try discriminate R; cbn [orders_of plans_of order plan].
  - split; [reflexivity | auto].
  - split; [reflexivity|]. intros i p H. rewrite E in H. discriminate H.
Qed.

(** ** Invariants of the order collection *)

(** An invariant of the store that every effect keeps holds after every
    run. *)
Lemma run_invariant (P : option Database -> Prop) :
  (forall db r db', effect db r db' -> P db -> P db') ->
  forall rs db, P db -> P (run db rs).
Proof.
  intros Step rs. induction rs as [|r rs IH]; intros db H; [exact H|].
  rewrite run_cons. apply IH. exact (Step db r _ (handle_effect db r) H).
Qed.

(** X13. In every store reached from one without orders, the total of
    every order is the plan price it was created with: no request changes
    either of the two. *)
Theorem total_stays_price (db : option Database) (rs : list Request) :
  orders_of db = [] ->
  Forall total_is_price (orders_of (run db rs)).
Proof.
  intro E.
  apply (run_invariant (fun db => Forall total_is_price (orders_of db))).
  - clear. intros db r db'
      [db0 r0 | d e c E | d g body p I | d clk order_id body i doc P F] H;
      cbn [orders_of order] in *; auto.
    + apply Forall_app. split; [exact H|].
      constructor; [reflexivity | constructor].
    + apply Forall_update_one; [| exact H].
      intros k d0 T. exact T.
  - rewrite E. constructor.
Qed.

(** On the seeded store, after a listing, Jane's order and its payment,
    the total is still the price of the plan. *)
Lemma total_stays_price_witness :
  Forall total_is_price
         (orders_of (run (Some Sample.seeded)
                         [ListPlans Sample.seed;
                          CreateOrder Sample.jane_generated Sample.jane;
                          PayOrder Sample.clock1 Sample.jane_id PaymentBody.default])).
Proof.
  apply (total_stays_price (Some Sample.seeded)). reflexivity.
Defined.

(** X14. In every store reached from one without orders, an order has a
    payment reference exactly when its status is "paid": a "created" order
    has none. *)
Theorem reference_set_when_paid (db : option Database) (rs : list Request) :
  orders_of db = [] ->
  Forall reference_iff_paid (orders_of (run db rs)).
Proof.
  intro E.
  apply (run_invariant (fun db => Forall reference_iff_paid (orders_of db))).
  - clear. intros db r db'
      [db0 r0 | d e c E | d g body p I | d clk order_id body i doc P F] H;
      cbn [orders_of order] in *; auto.
    + apply Forall_app. split; [exact H|].
      constructor; [left; split; reflexivity | constructor].
    + apply Forall_update_one; [| exact H].
      intros k d0 _. right. split; [reflexivity | eexists; reflexivity].
  - rewrite E. constructor.
Qed.

(** Jane's order before and after its payment. *)
Lemma reference_set_when_paid_witness :
  Forall reference_iff_paid
         (orders_of (run (Some Sample.seeded)
                         [ListPlans Sample.seed;
                          CreateOrder Sample.jane_generated Sample.jane])) /\
  Forall reference_iff_paid
         (orders_of (run (Some Sample.seeded)
                         [ListPlans Sample.seed;
                          CreateOrder Sample.jane_generated Sample.jane;
                          PayOrder Sample.clock1 Sample.jane_id PaymentBody.default])).
Proof.
  split; apply (reference_set_when_paid (Some Sample.seeded)); reflexivity.
Defined.

(** X15. Paid is final: an order stored with status "paid" and a payment
    reference is, after any run of requests, still stored with status
    "paid" and with a payment reference. *)
Theorem paid_stays_paid
        (db : option Database) (rs : list Request)
        (i : BSON.ObjectId) (doc : Document Order.t) (ref : string) :
  find_one i (orders_of db) = Some (i, doc) ->
  Order.status (data doc) = "paid" ->
  Order.payment_reference (data doc) = Some ref ->
  exists doc' ref',
    find_one i (orders_of (run db rs)) = Some (i, doc') /\
    Order.status (data doc') = "paid" /\
    Order.payment_reference (data doc') = Some ref'.
Proof.
  revert db doc ref. induction rs as [|r rs IH]; intros db doc ref F S R.
  - exists doc, ref. auto.
  - rewrite run_cons.
    destruct (effect_frame db r _ i doc (handle_effect db r) F)
      as (doc1 & F1 & _ & C).
    destruct C as [-> | (clk & order_id & body & _ & _ & ->)].
    + exact (IH _ doc ref F1 S R).
    + eapply IH; [exact F1 | reflexivity | reflexivity].
Qed.

(** Jane's paid order after a second payment and a read. *)
Lemma paid_stays_paid_witness :
  let paid := snd (pay_order Sample.clock1 Sample.jane_id PaymentBody.default
                             (Some Sample.ordered)) in
  exists doc' ref',
    find_one (Sample.oid_ending x0a)
             (orders_of (run paid
                             [PayOrder Sample.clock2 Sample.jane_id Sample.token_body;
                              GetOrder Sample.jane_id]))
    = Some (Sample.oid_ending x0a, doc') /\
    Order.status (data doc') = "paid" /\
    Order.payment_reference (data doc') = Some ref'.
Proof.
  intro paid.
  apply (paid_stays_paid paid _ (Sample.oid_ending x0a)
           (set_paid (payment_ref Sample.jane_id (timestamp Sample.clock1))
                     (utcnow Sample.clock1) Sample.jane_order)
           "PMT-293A0A-1700000200").
  - reflexivity.
  - reflexivity.
  - reflexivity.
Defined.

(** ** What runs keep *)

(** X16. Plans do not change once there are any: from a store that holds
    a plan, no run of requests adds, removes or alters a plan. *)
Theorem plans_fixed_once_seeded (db : option Database) (rs : list Request) :
  plans_of db <> [] ->
  plans_of (run db rs) = plans_of db.
Proof.
  intro H.
  apply (run_invariant (fun db' => plans_of db' = plans_of db)); [| reflexivity].
  intros db1 r db2
    [db0 r0 | d e c E | d g body p I | d clk order_id body i doc P F] Q;
    cbn [plans_of plan] in *; auto.
  rewrite E in Q. congruence.
Qed.

(** The seeded catalog after an order, a payment and another listing. *)
Lemma plans_fixed_once_seeded_witness :
  plans_of (run (Some Sample.seeded)
                [CreateOrder Sample.jane_generated Sample.jane;
                 PayOrder Sample.clock1 Sample.jane_id PaymentBody.default;
                 ListPlans Sample.seed])
  = stamped Sample.seed.
Proof.
  apply (plans_fixed_once_seeded (Some Sample.seeded)). discriminate.
Defined.

(** X17. The order collection only grows at its end and keeps its ids
    apart: after any run the ids stored before come first, in their order,
    followed by ids the run's [create_order] requests generated, and if no
    id was stored twice before, none is afterwards. *)
Theorem order_ids_append_only (db : option Database) (rs : list Request) :
  NoDup (ids (orders_of db)) ->
  NoDup (ids (orders_of (run db rs))) /\
  exists added,
    ids (orders_of (run db rs)) = (ids (orders_of db) ++ added)%list /\
    incl added (created_ids rs).
Proof.
  revert db. induction rs as [|r rs IH]; intros db N.
  - split; [exact N|]. exists []. split; [symmetry; apply app_nil_r|].
    intros x [].
  - rewrite run_cons.
    pose proof (handle_effect db r) as Eff.
    assert (NoDup (ids (orders_of (handle db r))) /\
            exists a, ids (orders_of (handle db r))
                      = (ids (orders_of db) ++ a)%list /\
                      incl a (created_ids (r :: rs))) as (N1 & a & E1 & I1).
    { destruct Eff as [db0 r0 | d e c E | d g body p I | d clk order_id body i doc P F];
        cbn [orders_of order] in *.
      - split; [exact N|]. exists []. split; [symmetry; apply app_nil_r|].
        intros x [].
      - split; [exact N|]. exists []. split; [symmetry; apply app_nil_r|].
        intros x [].
      - rewrite ids_app. cbn [ids map fst]. split.
        + apply NoDup_app; [exact N | repeat constructor; intros [] |].
          intros x Hx [<-|[]]. exact (I Hx).
        + exists [generated_id g]. split; [reflexivity|].
          intros x [<-|[]]. cbn [created_ids flat_map app]. left. reflexivity.
      - rewrite ids_update_one. split; [exact N|].
        exists []. split; [symmetry; apply app_nil_r|]. intros x []. }
    destruct (IH _ N1) as (N2 & b & E2 & I2).
    split; [exact N2|].
    exists (a ++ b)%list. split.
    + rewrite E2, E1, app_assoc. reflexivity.
    + intros x Hx. apply in_app_or in Hx.
      destruct Hx as [Hx|Hx]; [exact (I1 x Hx)|].
      cbn [created_ids flat_map]. apply in_or_app. right. exact (I2 x Hx).
Qed.

(** Two orders created one after the other. *)
Lemma order_ids_append_only_witness :
  NoDup (ids (orders_of (run (Some Sample.ordered)
                             [CreateOrder Sample.second_generated Sample.jane;
                              CreateOrder Sample.second_generated Sample.jane]))) /\
  ids (orders_of (run (Some Sample.ordered)
                      [CreateOrder Sample.second_generated Sample.jane;
                       CreateOrder Sample.second_generated Sample.jane]))
  = [Sample.oid_ending x0a; Sample.oid_ending x0b].
Proof.
  split; [| reflexivity].
  apply (order_ids_append_only (Some Sample.ordered)).
  repeat constructor. intros [].
Defined.

(** X18. [read_root], [get_order] and [test_database] never write: a run
    made of such requests only, whatever the ids asked for, leaves the store
    as it is, so interleaving them changes no later response. *)
Theorem reading_changes_nothing (db : option Database) (rs : list Request) :
  forallb reads_only rs = true ->
  run db rs = db.
Proof.
  induction rs as [|r rs IH]; intro H; [reflexivity|].
  cbn [forallb] in H. apply andb_true_iff in H as [Hr Hrs].
  rewrite run_cons.
  assert (handle db r = db) as ->.
  { destruct r; try discriminate Hr; cbn [handle]; try reflexivity.
    apply get_order_effect. }
  exact (IH Hrs).
Qed.

(** Reads of a stored order, of a missing one and of no object id. *)
Lemma reading_changes_nothing_witness :
  run (Some Sample.ordered)
      [GetOrder Sample.jane_id; ReadRoot; GetOrder "65a1b2c3d4e5f60718293a0b";
       TestDatabase; GetOrder "jane"]
  = Some Sample.ordered.
Proof.
  apply (reading_changes_nothing (Some Sample.ordered)). reflexivity.
Defined.

(** ** The diagnostic route *)

(** X19. The response of [test_database] says of the two environment
    variables only whether each is set to a non-empty value: the values
    written first, "Configured" and the name of the database, are always
    overwritten, so the response is the same whatever [db.name] is. *)
Theorem test_database_hides_name
        (db : option Database) (name name' : option string)
        (listing : string + list string) (getenv : string -> option string) :
  Diag.database_url (test_database db name listing getenv)
  = Some (if getenv_truth (getenv "DATABASE_URL")
          then "✅ Set" else "❌ Not Set") /\
  Diag.database_name (test_database db name listing getenv)
  = Some (if getenv_truth (getenv "DATABASE_NAME")
          then "✅ Set" else "❌ Not Set") /\
  test_database db name listing getenv = test_database db name' listing getenv.
Proof.
  destruct db as [d|], listing as [e|cs]; repeat split.
Qed.

(** [s[:n]] has at most [n] characters. *)
Lemma chars_take_chars (s : string) : forall n,
  Str.chars (Str.take_chars n s) <= n.
Proof.
  induction s as [|c s IH]; intro n; cbn [Str.take_chars Str.chars]; [lia|].
  destruct (Str.is_continuation c) eqn:E.
  - cbn [Str.chars]. rewrite E. apply IH.
  - destruct n as [|n]; cbn [Str.chars]; [lia|].
    rewrite E. specialize (IH n). lia.
Qed.

(** [s[:n]] is [s] when [s] has no more than [n] characters. *)
Lemma take_chars_all (s : string) : forall n,
  Str.chars s <= n -> Str.take_chars n s = s.
Proof.
  induction s as [|c s IH]; intros n H; cbn [Str.take_chars Str.chars] in *;
    [reflexivity|].
  destruct (Str.is_continuation c).
  - rewrite (IH n H). reflexivity.
  - destruct n as [|n]; [lia|]. rewrite (IH n) by lia. reflexivity.
Qed.

(** X20. [test_database] lists at most ten collections, the first ten the
    store names, and none unless the store is configured and could be
    listed; it reports "Connected" exactly when the store is configured,
    and a listing that fails is reported in the [database] field with the
    first fifty characters of the error text, the whole text when it has
    no more. *)
Theorem test_database_reports
        (db : option Database) (name : option string)
        (listing : string + list string) (getenv : string -> option string) :
  let r := test_database db name listing getenv in
  List.length (Diag.collections r) <= 10 /\
  (exists rest,
      match db, listing with
      | Some _, inr cs => cs = (Diag.collections r ++ rest)%list
      | _, _ => Diag.collections r = []
      end) /\
  (Diag.connection_status r = "Connected" <-> db <> None) /\
  (Diag.database r = "✅ Connected & Working" <->
   db <> None /\ exists cs, listing = inr cs) /\
  (forall e, db <> None -> listing = inl e ->
             exists shown,
               Diag.database r = "⚠️  Connected but Error: " ++ shown /\
               shown = Str.take_chars 50 e /\
               Str.chars shown <= 50 /\
               (Str.chars e <= 50 -> shown = e)).
Proof.
  intro r. subst r.
  destruct db as [d|], listing as [e|cs];
    cbn [test_database is_not_None Diag.set_database Diag.set_database_url
         Diag.set_database_name Diag.set_connection_status Diag.set_collections
         Diag.collections Diag.connection_status Diag.database
         Diag.backend Diag.database_url Diag.database_name List.length].
  all: split; [try lia | split; [| split; [| split]]].
  all: try (exists []; reflexivity).
  all: try (split; [discriminate | intros H; exfalso; apply H; reflexivity]).
  all: try (split; [intro; discriminate | reflexivity]).
  all: try (split; [discriminate | intros [H _]; exfalso; apply H; reflexivity]).
  all: try (split; [discriminate | intros [_ [cs' H]]; discriminate H]).
  all: try (intros e' H; exfalso; apply H; reflexivity).
  all: try (intros e' _ H; discriminate H).
  - intros e' _ H. injection H as <-. exists (Str.take_chars 50 e).
    split; [reflexivity|]. split; [reflexivity|]. split.
    + apply chars_take_chars.
    + apply take_chars_all.
  - rewrite length_firstn. lia.
  - exists (skipn 10 cs). symmetry. apply firstn_skipn.
  - split; [intros _; split; [discriminate | exists cs; reflexivity] | reflexivity].
Qed.

(** A store with twelve collections, one whose listing fails, and one
    whose listing fails with a text of 60 characters that are not ASCII:
    fifty of them, a hundred bytes, are kept. *)
Lemma test_database_reports_witness :
  Diag.collections
    (test_database (Some Sample.ordered) (Some "wills")
       (inr ["plan"; "order"; "c03"; "c04"; "c05"; "c06"; "c07"; "c08";
             "c09"; "c10"; "c11"; "c12"])
       Sample.getenv)
  = ["plan"; "order"; "c03"; "c04"; "c05"; "c06"; "c07"; "c08"; "c09"; "c10"] /\
  (exists shown,
    Diag.database
      (test_database (Some Sample.ordered) (Some "wills")
         (inl "connection refused") Sample.getenv)
    = "⚠️  Connected but Error: " ++ shown /\
    shown = "connection refused") /\
  (exists shown,
    Diag.database
      (test_database (Some Sample.ordered) (Some "wills")
         (inl "éééééééééééééééééééééééééééééééééééééééééééééééééééééééééééé")
         Sample.getenv)
    = "⚠️  Connected but Error: " ++ shown /\
    Str.chars shown = 50 /\ String.length shown = 100).
Proof.
  split; [reflexivity|]. split.
  - destruct (test_database_reports (Some Sample.ordered) (Some "wills")
                (inl "connection refused") Sample.getenv)
      as (_ & _ & _ & _ & E).
    destruct (E "connection refused") as (shown & D & _ & _ & A);
      [discriminate | reflexivity |].
    exists shown. split; [exact D|]. apply A. apply Nat.leb_le. reflexivity.
  - destruct (test_database_reports (Some Sample.ordered) (Some "wills")
                (inl "éééééééééééééééééééééééééééééééééééééééééééééééééééééééééééé")
                Sample.getenv)
      as (_ & _ & _ & _ & E).
    destruct (E "éééééééééééééééééééééééééééééééééééééééééééééééééééééééééééé")
      as (shown & D & T & _ & _); [discriminate | reflexivity |].
    exists shown. split; [exact D|]. subst shown. split; reflexivity.
Defined.

(** Listing the plans of the store with Jane's order in it. *)
Lemma list_plans_frame_witness :
  orders_of (snd (list_plans Sample.seed (Some Sample.ordered)))
  = [(Sample.oid_ending x0a, Sample.jane_order)] /\
  find_one (Sample.oid_ending x01)
           (plans_of (snd (list_plans Sample.seed (Some Sample.ordered))))
  = Some (Sample.oid_ending x01, Sample.essential).
Proof.
  destruct (list_plans_frame Sample.seed (Some Sample.ordered)) as [O P].
  split; [exact O|]. apply P. reflexivity.
Defined.
